(** * The genai notebooks: a shallow embedding and its properties

    The repository holds two Jupyter notebooks,
    [llm_parameter_eff_fine_tuning.ipynb] (LoRA fine-tuning of DistilBERT
    on MultiNLI) and [custom_chatbot_langchain.ipynb] (a retrieval-augmented
    chatbot).  Both are straight-line Python scripts over external
    libraries.  The embedding below keeps the Python of the code cells:

    - a cell is a computation in the monad [Py], which threads the
      observable history of the kernel (lines printed, library calls made,
      and the one mutable object the notebooks create that outlives a call)
      and may stop with an exception;
    - a call into an external library is the primitive [call]: it records
      the call and returns what the library returned, which is read from an
      environment [Lib] of library functions;
    - the functions defined in the notebooks ([show_one_example_per_label],
      [preprocess_function], [compute_metrics],
      [chatbot_without_customization], [chatbot_with_langchain]) and the
      cells themselves are transcribed statement by statement. *)

From Stdlib Require Import ZArith QArith List String Lia Sorted.

#[local] Set Warnings "-abstract-large-number".
From stdpp Require Import base gmap sets list strings pretty.

Open Scope Z_scope.

(** ** Python values and exceptions *)

(** The exception classes that can reach the model: the three raised by
    Python's own indexing and attribute access, and any class raised inside
    a library.  The notebooks define no exception class. *)
Inductive exn :=
  | IndexError
  | KeyError
  | AttributeError
  | LibraryError (cls : string).

(** The line feed, which Rocq's string literals cannot escape. *)
Definition nl : string := String (Ascii.ascii_of_nat 10) "".

(** ** What a run leaves behind *)

(** The entry points of the external libraries that the notebooks reach,
    with the arguments that the properties below speak about. *)
Inductive libcall :=
  (* datasets *)
  | load_dataset (name : string)
  | Dataset_select
  | Dataset_next
  | Dataset_map (split : string)
  (* transformers *)
  | AutoTokenizer_from_pretrained (name : string)
  | tokenizer_call
  | AutoModelForSequenceClassification_from_pretrained (name : string) (num_labels : Z)
  | Module_to (device : string)
  | Trainer_init (output_dir : string)
  | Trainer_prediction_loop
  | Trainer_training_epoch (epoch : nat)
  | Trainer_save_checkpoint (output_dir : string) (epoch : nat)
  | Trainer_load_best_model (output_dir : string)
  (* torch, scikit-learn *)
  | torch_cuda_is_available
  | torch_argmax
  | sk_f1_score
  | sk_precision_score
  | sk_recall_score
  (* peft *)
  | get_peft_model
  | print_trainable_parameters
  | PeftModel_save_pretrained (directory : string)
  (* dotenv, os, pandas *)
  | load_dotenv
  | os_getenv (name : string)
  | pd_read_csv (path : string)
  | DataFrame_setitem (column : string)
  (* langchain, openai *)
  | DataFrameLoader_load (page_content_column : string)
  | OpenAIEmbeddings_init
  | embed_documents (texts : list string)
  | FAISS_index
  | ChatOpenAI_init (model_name : string)
  | as_retriever
  | ConversationalRetrievalChain_from_llm
  | chain_invoke (question : string) (chat_history : list (string * string))
  | OpenAI_init
  | chat_completions_create (model : string) (content : string) (max_tokens : Z).

(** One observable step of a run. [Printed] is a call of Python's [print]
    with the text it writes (without the final line feed); [Displayed] is the
    rich output of the last expression of a cell, named by its source text;
    [Call] is a call into a library; [Raised] marks the point where an
    exception is raised, by a library or by Python itself. *)
Inductive event :=
  | Printed (text : string)
  | Displayed (expr : string)
  | Call (c : libcall)
  | Raised (e : exn).

(** The kernel state that the properties need: the history of events,
    oldest first, and the contents of the list object that Python creates
    once, when the [def] of [chatbot_with_langchain] is executed, as the
    default value of [chat_history]. Every call that omits the argument
    receives that same object. *)
Record world := World {
  events : list event;
  chat_history_default : list (string * string)
}.

Definition log (e : event) (w : world) : world :=
  {| events := events w ++ [e]; chat_history_default := chat_history_default w |}.

(** ** The monad of cell code *)

Definition result (A : Type) : Type := (exn + A)%type.

Definition Py (A : Type) : Type := world -> result A * world.

Definition ret {A} (a : A) : Py A := fun w => (inr a, w).

Definition raise {A} (e : exn) : Py A := fun w => (inl e, log (Raised e) w).

Definition bind {A B} (m : Py A) (k : A -> Py B) : Py B :=
  fun w => match m w with
           | (inr a, w') => k a w'
           | (inl e, w') => (inl e, w')
           end.

#[global] Instance Py_ret : MRet Py := @ret.
#[global] Instance Py_bind : MBind Py := fun A B k m => bind m k.
#[global] Instance Py_throw : MThrow exn Py := @raise.

(** A call into a library: the call is recorded, then the library's answer
    is the outcome, a value returned or an exception raised. *)
Definition call {A} (c : libcall) (r : result A) : Py A :=
  fun w => match r with
           | inr a => (inr a, log (Call c) w)
           | inl e => (inl e, log (Raised e) (log (Call c) w))
           end.

Definition print (text : string) : Py unit :=
  fun w => (inr tt, log (Printed text) w).

Definition display (expr : string) : Py unit :=
  fun w => (inr tt, log (Displayed expr) w).

(** [for x in xs: body x], without [break]. *)
Fixpoint for_each {A} (xs : list A) (body : A -> Py unit) : Py unit :=
  match xs with
  | [] => ret tt
  | x :: rest => body x ;; for_each rest body
  end.

(** Subscripting: [d[k]] on a dict and [l[i]] on a list. *)
Definition getitem `{Countable K} {V} (d : gmap K V) (k : K) : Py V :=
  match d !! k with
  | Some v => ret v
  | None => raise KeyError
  end.

Definition list_getitem {A} (l : list A) (i : nat) : Py A :=
  match l !! i with
  | Some v => ret v
  | None => raise IndexError
  end.

(** [s * n] on a string. *)
Fixpoint string_mul (s : string) (n : nat) : string :=
  match n with
  | O => ""
  | S n' => s +:+ string_mul s n'
  end.

(** [range(a, b)] for non-negative bounds. *)
Definition py_range (a b : nat) : list nat := seq a (b - a).

(** ** The fine-tuning notebook: data *)

(** A MultiNLI example, with the columns the notebook reads. *)
Record example := Example {
  label : Z;
  premise : string;
  hypothesis : string
}.

(** What the tokenizer returns for one premise and hypothesis pair. *)
Record encoding := Encoding {
  input_ids : list Z;
  attention_mask : list Z
}.

(** A row of the tokenized dataset: the original columns are removed, the
    tokenizer's columns and [labels] remain. *)
Record features := Features {
  encoded : encoding;
  labels : Z
}.

(** A [DatasetDict]: the splits by name, in the order the hub gives them. *)
Definition DatasetDict (A : Type) : Type := list (string * list A).

Fixpoint split_lookup {A} (d : DatasetDict A) (name : string) : option (list A) :=
  match d with
  | [] => None
  | (k, v) :: rest => if String.eqb k name then Some v else split_lookup rest name
  end.

(** [dataset[name]]. *)
Definition split_getitem {A} (d : DatasetDict A) (name : string) : Py (list A) :=
  match split_lookup d name with
  | Some v => mret v
  | None => raise KeyError
  end.

(** [Dataset.select(indices)]: the rows at the given positions, in the
    order of the indices; an index past the end is an [IndexError]. *)
Fixpoint select_rows {A} (rows : list A) (indices : list nat) : result (list A) :=
  match indices with
  | [] => inr []
  | i :: rest =>
      match rows !! i with
      | None => inl IndexError
      | Some r =>
          match select_rows rows rest with
          | inl e => inl e
          | inr rs => inr (r :: rs)
          end
      end
  end.

Definition select {A} (rows : list A) (indices : list nat) : Py (list A) :=
  call Dataset_select (select_rows rows indices).

(** ** Cell 4: one example per label *)

Definition label_map : gmap Z string :=
  {[ 0 := "Entailment"; 1 := "Neutral"; 2 := "Contradiction" ]}.

(** The body of [for example in subset], with the set [seen_labels] as the
    loop state. Each iteration first takes the next example from the
    dataset iterator; [break] leaves the loop without taking another. *)
Fixpoint show_loop (subset : list example) (seen_labels : gset Z) : Py unit :=
  match subset with
  | [] => mret tt
  | example :: rest =>
      call Dataset_next (inr tt) ;;
      let label := label example in
      seen_labels ←
        (if bool_decide (label ∈ [0; 1; 2]) && bool_decide (label ∉ seen_labels)
         then
           name ← getitem label_map label;
           print (nl +:+ "Label: " +:+ pretty label +:+ " (" +:+ name +:+ ")") ;;
           print ("Premise: " +:+ premise example) ;;
           print ("Hypothesis: " +:+ hypothesis example) ;;
           mret ({[ label ]} ∪ seen_labels)
         else mret seen_labels);
      if bool_decide (size seen_labels = 3%nat)
      then mret tt
      else show_loop rest seen_labels
  end.

Definition show_one_example_per_label
    (dataset_split : list example) (offset : nat) : Py unit :=
  subset ← select dataset_split (py_range offset (length dataset_split));
  show_loop subset ∅.

(** ** The external libraries *)

(** The objects that only the libraries look inside. *)
Record Opaque := {
  PreTrainedTokenizer : Type;
  PreTrainedModel : Type;
  OpenAIEmbeddings : Type;
  FAISS : Type;
  ChatOpenAI : Type;
  VectorStoreRetriever : Type;
  ConversationalRetrievalChain : Type;
  OpenAI : Type
}.

(** [TrainingArguments]: the fields the notebook sets, and those whose
    defaults decide what [Trainer] does. *)
Record TrainingArguments := {
  output_dir : string;
  do_train : bool;
  do_eval : bool;
  evaluation_strategy : string;
  save_strategy : string;
  learning_rate : Q;
  per_device_train_batch_size : nat;
  per_device_eval_batch_size : nat;
  num_train_epochs : nat;
  weight_decay : Q;
  logging_dir : option string;
  logging_steps : nat;
  load_best_model_at_end : bool;
  report_to : string;
  dataloader_num_workers : nat
}.

Record LoraConfig := {
  task_type : string;
  r : nat;
  lora_alpha : nat;
  lora_dropout : Q;
  target_modules : list string;
  bias : string;
  use_rslora : bool
}.

(** A chat completion, as far as the notebook reads it:
    [response.choices[0].message.content]. *)
Record ChatCompletionMessage := { content : option string }.
Record Choice := { message : ChatCompletionMessage }.
Record ChatCompletion := { choices : list Choice }.

(** A row of a [DataFrame] maps column names to cells; a [Document] has the
    page content and the remaining columns as metadata. *)
Abbreviation DataFrame := (list (gmap string string)).

Record Document := {
  page_content : string;
  metadata : gmap string string
}.

(** What the libraries answer. Each field is the outcome of one library
    function on given arguments: a value, or the exception it raises. A
    floating-point number is modelled by the rational it denotes. *)
Record Lib (O : Opaque) := {
  (* datasets, transformers *)
  hub_load_dataset : string -> result (DatasetDict example);
  tokenizer_from_pretrained : string -> result (PreTrainedTokenizer O);
  tokenize : PreTrainedTokenizer O -> list string -> list string ->
             string -> bool -> result (list encoding);
  model_from_pretrained : string -> Z -> result (PreTrainedModel O);
  cuda_is_available : bool;
  model_to : PreTrainedModel O -> string -> result (PreTrainedModel O);
  trainer_new : PreTrainedModel O -> TrainingArguments -> result unit;
  prediction_loop : PreTrainedModel O -> list features -> nat ->
                    result (list (list Q) * Q);
  training_epoch : PreTrainedModel O -> list features -> TrainingArguments ->
                   nat -> result (PreTrainedModel O);
  save_checkpoint : PreTrainedModel O -> string -> nat -> result unit;
  load_best_model : PreTrainedModel O -> string -> result (PreTrainedModel O);
  (* scikit-learn: [metric(y_true, y_pred, average=...)] *)
  f1_score : list Z -> list Z -> string -> result Q;
  precision_score : list Z -> list Z -> string -> result Q;
  recall_score : list Z -> list Z -> string -> result Q;
  (* peft *)
  peft_get_peft_model : PreTrainedModel O -> LoraConfig -> result (PreTrainedModel O);
  peft_print_trainable_parameters : PreTrainedModel O -> result unit;
  peft_save_pretrained : PreTrainedModel O -> string -> result unit;
  (* dotenv, os, openai module attributes, pandas *)
  dotenv_load : result bool;
  getenv : string -> option string;
  openai_api_key : option string;
  read_csv : string -> result DataFrame;
  (* langchain, openai *)
  embeddings_new : option string -> string -> result (OpenAIEmbeddings O);
  embed : OpenAIEmbeddings O -> list string -> result (list (list Q));
  faiss_build : list Document -> list (list Q) -> result (FAISS O);
  chat_model_new : string -> option string -> string -> result (ChatOpenAI O);
  faiss_as_retriever : FAISS O -> result (VectorStoreRetriever O);
  from_llm : ChatOpenAI O -> VectorStoreRetriever O ->
             result (ConversationalRetrievalChain O);
  (* [chain.invoke({"question": q, "chat_history": h})]: the outcome, and
     the contents of the list object [h] when the call is over *)
  invoke : ConversationalRetrievalChain O -> string -> list (string * string) ->
           result (gmap string string) * list (string * string);
  openai_new : option string -> string -> result (OpenAI O);
  completions_create : OpenAI O -> string -> list (string * string) -> Z ->
                       result ChatCompletion;
  (* the builtin [str.strip] *)
  strip : string -> string
}.

Arguments hub_load_dataset {O}.
Arguments tokenizer_from_pretrained {O}.
Arguments tokenize {O}.
Arguments model_from_pretrained {O}.
Arguments cuda_is_available {O}.
Arguments model_to {O}.
Arguments trainer_new {O}.
Arguments prediction_loop {O}.
Arguments training_epoch {O}.
Arguments save_checkpoint {O}.
Arguments load_best_model {O}.
Arguments f1_score {O}.
Arguments precision_score {O}.
Arguments recall_score {O}.
Arguments peft_get_peft_model {O}.
Arguments peft_print_trainable_parameters {O}.
Arguments peft_save_pretrained {O}.
Arguments dotenv_load {O}.
Arguments getenv {O}.
Arguments openai_api_key {O}.
Arguments read_csv {O}.
Arguments embeddings_new {O}.
Arguments embed {O}.
Arguments faiss_build {O}.
Arguments chat_model_new {O}.
Arguments faiss_as_retriever {O}.
Arguments from_llm {O}.
Arguments invoke {O}.
Arguments openai_new {O}.
Arguments completions_create {O}.
Arguments strip {O}.

Section FineTuningFunctions.
Context {O : Opaque} (L : Lib O).

(** ** Cell 6: tokenization *)

(** [preprocess_function(examples)], called by [Dataset.map] with a batch
    of rows: the tokenizer's columns, and the column [labels] set to the
    batch's [label] column. *)
Definition preprocess_function (tokenizer : PreTrainedTokenizer O)
    (examples : list example) : Py (list encoding * list Z) :=
  tokenized_inputs ←
    call tokenizer_call
         (tokenize L tokenizer (premise <$> examples) (hypothesis <$> examples)
                   "max_length" true);
  mret (tokenized_inputs, label <$> examples).

(** [Dataset.map(function, batched=True, remove_columns=...)] on one split:
    the function is applied to consecutive batches of [batch_size] rows
    (1000 unless given) and the returned columns become the rows of the new
    split; columns of different lengths are refused. *)
Fixpoint batches_fuel {A} (fuel : nat) (batch_size : nat) (rows : list A) : list (list A) :=
  match fuel, rows with
  | S fuel', _ :: _ => take batch_size rows :: batches_fuel fuel' batch_size (drop batch_size rows)
  | _, _ => []
  end.

Definition batches {A} (batch_size : nat) (rows : list A) : list (list A) :=
  batches_fuel (length rows) batch_size rows.

Definition rows_of_columns (columns : list encoding * list Z) : Py (list features) :=
  if bool_decide (length columns.1 = length columns.2)
  then mret (zip_with Features columns.1 columns.2)
  else raise (LibraryError "ArrowInvalid").

Fixpoint map_batches (function : list example -> Py (list encoding * list Z))
    (bs : list (list example)) : Py (list features) :=
  match bs with
  | [] => mret []
  | b :: rest =>
      columns ← function b;
      rows ← rows_of_columns columns;
      more ← map_batches function rest;
      mret (rows ++ more)
  end.

Fixpoint DatasetDict_map (function : list example -> Py (list encoding * list Z))
    (dataset : DatasetDict example) : Py (DatasetDict features) :=
  match dataset with
  | [] => mret []
  | (name, rows) :: rest =>
      call (Dataset_map name) (inr tt) ;;
      rows' ← map_batches function (batches 1000 rows);
      rest' ← DatasetDict_map function rest;
      mret ((name, rows') :: rest')
  end.

(** ** Cell 9: the metrics *)

(** [torch.argmax(row)]: the position of the first maximal entry; an empty
    row has none. *)
Fixpoint argmax_from (best_i : nat) (best : Q) (i : nat) (row : list Q) : nat :=
  match row with
  | [] => best_i
  | x :: rest =>
      if Qle_bool x best
      then argmax_from best_i best (S i) rest
      else argmax_from i x (S i) rest
  end.

Definition argmax (row : list Q) : result Z :=
  match row with
  | [] => inl IndexError
  | x :: rest => inr (Z.of_nat (argmax_from 0 x 1 rest))
  end.

(** [torch.argmax(torch.tensor(predictions), dim=-1)] on an array of shape
    (n_samples, n_classes). *)
Fixpoint argmax_last_dim (predictions : list (list Q)) : result (list Z) :=
  match predictions with
  | [] => inr []
  | row :: rest =>
      match argmax row with
      | inl e => inl e
      | inr i =>
          match argmax_last_dim rest with
          | inl e => inl e
          | inr more => inr (i :: more)
          end
      end
  end.

Definition compute_metrics (eval_pred : list (list Q) * list Z) : Py (gmap string Q) :=
  let '(predictions, labels) := eval_pred in
  preds ← call torch_argmax (argmax_last_dim predictions);
  f1 ← call sk_f1_score (f1_score L labels preds "macro");
  precision ← call sk_precision_score (precision_score L labels preds "macro");
  recall ← call sk_recall_score (recall_score L labels preds "macro");
  mret ({[ "f1_score" := f1; "precision" := precision; "recall" := recall ]} : gmap string Q).

(** ** The trainer *)

(** A [Trainer] as the notebook builds it. The model is the object that
    training updates in place; here the updated model is passed on. *)
Record Trainer := {
  trainer_model : PreTrainedModel O;
  args : TrainingArguments;
  train_dataset : option (list features);
  eval_dataset : option (list features);
  trainer_compute_metrics : option (list (list Q) * list Z -> Py (gmap string Q))
}.

Definition new_Trainer (model : PreTrainedModel O) (args : TrainingArguments)
    (train_dataset eval_dataset : option (list features))
    (compute_metrics : option (list (list Q) * list Z -> Py (gmap string Q)))
    : Py Trainer :=
  call (Trainer_init (output_dir args)) (trainer_new L model args) ;;
  mret {| trainer_model := model; args := args;
          train_dataset := train_dataset; eval_dataset := eval_dataset;
          trainer_compute_metrics := compute_metrics |}.

Definition prefix_keys (prefix : string) (metrics : gmap string Q) : gmap string Q :=
  list_to_map ((fun kv => (prefix +:+ kv.1, kv.2)) <$> map_to_list metrics).

(** [Trainer.evaluate()]: the prediction loop over the evaluation set,
    then the [compute_metrics] callback on the logits and the label column;
    the metrics come back under keys prefixed with ["eval_"], with the loss. *)
Definition Trainer_evaluate (trainer : Trainer) (model : PreTrainedModel O)
    : Py (gmap string Q) :=
  eval_ds ← match eval_dataset trainer with
            | Some d => mret d
            | None => raise (LibraryError "ValueError")
            end;
  out ← call Trainer_prediction_loop
             (prediction_loop L model eval_ds
                (per_device_eval_batch_size (args trainer)));
  metrics ← match trainer_compute_metrics trainer with
            | Some f => f (out.1, labels <$> eval_ds)
            | None => mret ∅
            end;
  mret (<[ "eval_loss" := out.2 ]> (prefix_keys "eval_" metrics)).

(** [Trainer.train()], epoch by epoch: the optimisation pass over the
    training set; with [evaluation_strategy="epoch"] an evaluation; with
    [save_strategy="epoch"] a checkpoint written under [output_dir]. After
    the last epoch [load_best_model_at_end] reloads the best checkpoint.
    (The notebook's own text for the cell: both settings "ensure the model
    is evaluated and checkpointed at the end of every epoch".  Saving by
    optimiser steps, the default strategy, is below the grain of this model;
    the notebook never trains with it.) *)
Fixpoint train_loop (trainer : Trainer) (train_ds : list features)
    (model : PreTrainedModel O) (epochs : list nat) : Py (PreTrainedModel O) :=
  match epochs with
  | [] => mret model
  | e :: rest =>
      model ← call (Trainer_training_epoch e)
                   (training_epoch L model train_ds (args trainer) e);
      (if String.eqb (evaluation_strategy (args trainer)) "epoch"
       then Trainer_evaluate trainer model ;; mret tt
       else mret tt) ;;
      (if String.eqb (save_strategy (args trainer)) "epoch"
       then call (Trainer_save_checkpoint (output_dir (args trainer)) e)
                 (save_checkpoint L model (output_dir (args trainer)) e)
       else mret tt) ;;
      train_loop trainer train_ds model rest
  end.

Definition Trainer_train (trainer : Trainer) : Py (PreTrainedModel O) :=
  train_ds ← match train_dataset trainer with
             | Some d => mret d
             | None => raise (LibraryError "ValueError")
             end;
  model ← train_loop trainer train_ds (trainer_model trainer)
                     (seq 1 (num_train_epochs (args trainer)));
  if load_best_model_at_end (args trainer)
  then call (Trainer_load_best_model (output_dir (args trainer)))
            (load_best_model L model (output_dir (args trainer)))
  else mret model.

End FineTuningFunctions.

(** ** The cells of the fine-tuning notebook, in order *)

Module FineTuning.
Section Cells.
Context {O : Opaque} (L : Lib O).

(** In [2] *)
Definition In_2 : Py unit :=
  call torch_cuda_is_available (inr tt) ;;
  display "torch.cuda.is_available()".

(** In [3] *)
Definition In_3 : Py (DatasetDict example) :=
  dataset ← call (load_dataset "multi_nli") (hub_load_dataset L "multi_nli");
  train ← split_getitem dataset "train";
  print ("Train dataset size: " +:+ pretty (length train)) ;;
  matched ← split_getitem dataset "validation_matched";
  print ("Validation (matched) dataset size: " +:+ pretty (length matched)) ;;
  mismatched ← split_getitem dataset "validation_mismatched";
  print ("Validation (mismatched) dataset size: " +:+ pretty (length mismatched)) ;;
  mret dataset.

(** In [4] *)
Definition In_4 : Py (DatasetDict example) :=
  dataset ← call (load_dataset "multi_nli") (hub_load_dataset L "multi_nli");
  train ← split_getitem dataset "train";
  show_one_example_per_label train 550 ;;
  mret dataset.

(** In [5] *)
Definition model_name : string := "distilbert-base-uncased".

Definition In_5 : Py (PreTrainedTokenizer O) :=
  call (AutoTokenizer_from_pretrained model_name)
       (tokenizer_from_pretrained L model_name).

(** In [6] *)
Definition In_6 (dataset : DatasetDict example) (tokenizer : PreTrainedTokenizer O)
    : Py (DatasetDict features) :=
  tokenized_datasets ← DatasetDict_map (preprocess_function L tokenizer) dataset;
  train ← split_getitem tokenized_datasets "train";
  list_getitem train 0 ;;
  display "tokenized_datasets['train'][0]" ;;
  mret tokenized_datasets.

(** In [7] *)
Definition In_7 (tokenized_datasets : DatasetDict features)
    : Py (list features * list features) :=
  train ← split_getitem tokenized_datasets "train";
  train_dataset ← select train (py_range 0 50000);
  matched ← split_getitem tokenized_datasets "validation_matched";
  eval_dataset ← select matched (py_range 0 4000);
  print ("Train subset size: " +:+ pretty (length train_dataset)) ;;
  print ("Eval subset size: " +:+ pretty (length eval_dataset)) ;;
  mret (train_dataset, eval_dataset).

(** In [8] *)
Definition device : string := if cuda_is_available L then "cuda" else "cpu".

Definition In_8 : Py (PreTrainedModel O) :=
  base_model ← call (AutoModelForSequenceClassification_from_pretrained model_name 3)
                    (model_from_pretrained L model_name 3);
  call torch_cuda_is_available (inr tt) ;;
  base_model ← call (Module_to device) (model_to L base_model device);
  display "base_model" ;;
  mret base_model.

(** In [10]. Fields the cell does not pass have the library's defaults. *)
Definition training_args_base : TrainingArguments := {|
  output_dir := "./base_model_eval";
  per_device_eval_batch_size := 8;
  do_train := false;
  do_eval := true;
  evaluation_strategy := "epoch";
  logging_steps := 10;
  report_to := "none";
  (* defaults *)
  save_strategy := "steps";
  learning_rate := 5 / 100000;
  per_device_train_batch_size := 8;
  num_train_epochs := 3;
  weight_decay := 0;
  logging_dir := None;
  load_best_model_at_end := false;
  dataloader_num_workers := 0
|}.

Definition In_10 (base_model : PreTrainedModel O) (eval_dataset : list features)
    : Py (Trainer (O:=O)) :=
  trainer_base ← new_Trainer L base_model training_args_base
                   None (Some eval_dataset) (Some (compute_metrics L));
  print "Evaluating pretrained base model..." ;;
  Trainer_evaluate L trainer_base (trainer_model trainer_base) ;;
  display "results_base" ;;
  mret trainer_base.

(** In [11] *)
Definition In_11 : Py unit :=
  display "Model is running on: next(trainer_base.model.parameters()).device".

(** In [12], In [13] *)
Definition notebook_target_modules : list string := [
  "distilbert.transformer.layer.5.attention.q_lin";
  "distilbert.transformer.layer.5.attention.k_lin";
  "distilbert.transformer.layer.5.attention.v_lin";
  "distilbert.transformer.layer.5.attention.out_lin"
].

Definition peft_config : LoraConfig := {|
  task_type := "SEQ_CLS";
  r := 64;
  lora_alpha := 16;
  lora_dropout := 5 / 100;
  target_modules := notebook_target_modules;
  bias := "none";
  use_rslora := true
|}.

(** In [14] *)
Definition In_14 (base_model : PreTrainedModel O) : Py (PreTrainedModel O) :=
  let model := base_model in
  peft_model ← call get_peft_model (peft_get_peft_model L model peft_config);
  call torch_cuda_is_available (inr tt) ;;
  call (Module_to device) (model_to L model device) ;;
  call print_trainable_parameters (peft_print_trainable_parameters L peft_model) ;;
  mret peft_model.

(** In [16] *)
Definition training_args : TrainingArguments := {|
  output_dir := "./peft_multi_nli_results";
  evaluation_strategy := "epoch";
  save_strategy := "epoch";
  learning_rate := 2 / 100000;
  per_device_train_batch_size := 8;
  per_device_eval_batch_size := 8;
  num_train_epochs := 12;
  weight_decay := 1 / 100;
  logging_dir := Some "./logs";
  logging_steps := 10;
  load_best_model_at_end := true;
  report_to := "none";
  dataloader_num_workers := 10;
  (* defaults *)
  do_train := false;
  do_eval := false
|}.

Definition In_16 (peft_model : PreTrainedModel O)
    (train_dataset eval_dataset : list features) : Py (PreTrainedModel O) :=
  trainer ← new_Trainer L peft_model training_args
              (Some train_dataset) (Some eval_dataset) (Some (compute_metrics L));
  peft_model ← Trainer_train L trainer;
  display "trainer.train()" ;;
  mret peft_model.

(** In [17] *)
Definition In_17 (peft_model : PreTrainedModel O) : Py unit :=
  call (PeftModel_save_pretrained "./peft_multi_nli")
       (peft_save_pretrained L peft_model "./peft_multi_nli") ;;
  print "PEFT adapters saved to ./peft_multi_nli".

(** The notebook, run top to bottom. *)
Definition notebook : Py unit :=
  In_2 ;;
  _ ← In_3;
  dataset ← In_4;
  tokenizer ← In_5;
  tokenized_datasets ← In_6 dataset tokenizer;
  subsets ← In_7 tokenized_datasets;
  base_model ← In_8;
  _ ← In_10 base_model subsets.2;
  In_11 ;;
  peft_model ← In_14 base_model;
  peft_model ← In_16 peft_model subsets.1 subsets.2;
  In_17 peft_model.

End Cells.
End FineTuning.

(** ** The chatbot notebook *)

Section ChatbotFunctions.
Context {O : Opaque} (L : Lib O).

(** In [3]: [openai.api_base] is assigned once and read by the functions.
    [openai.api_key] is read too, but the notebook never assigns it (the
    key from the environment goes to a variable of another name), so its
    value is the library's. *)
Definition openai_api_base : string := "https://openai.vocareum.com/v1".

(** pandas: [df[name]], [series + str], [series + series] on series of
    the same frame, and [df[name] = series]. *)
Definition column (df : DataFrame) (name : string) : Py (list string) :=
  match mapM (fun row : gmap string string => row !! name) df with
  | Some cells => mret cells
  | None => raise KeyError
  end.

Definition series_add_str (s : list string) (suffix : string) : list string :=
  (fun cell => cell +:+ suffix) <$> s.

Definition series_add (s1 s2 : list string) : list string :=
  zip_with String.append s1 s2.

Definition setitem (df : DataFrame) (name : string) (s : list string) : Py DataFrame :=
  call (DataFrame_setitem name)
       (inr (zip_with (fun (row : gmap string string) cell => <[ name := cell ]> row) df s)).

(** In [4], second line:
    [df['text'] = df['Name'] + ": " + df['Description'] + " (" + df['Medium']
                  + ", " + df['Setting'] + ")"] *)
Definition add_text (df : DataFrame) : Py DataFrame :=
  name ← column df "Name";
  description ← column df "Description";
  medium ← column df "Medium";
  setting ← column df "Setting";
  setitem df "text"
    (series_add_str
       (series_add
          (series_add_str
             (series_add
                (series_add_str
                   (series_add (series_add_str name ": ") description)
                   " (")
                medium)
             ", ")
          setting)
       ")").

(** [DataFrameLoader(df, page_content_column=c).load()]: one document per
    row, the cell of column [c] as page content, the other cells as
    metadata. *)
Definition load_documents (df : DataFrame) (c : string) : result (list Document) :=
  match mapM (fun row : gmap string string =>
                text ← row !! c;
                Some {| page_content := text; metadata := delete c row |}) df with
  | Some documents => inr documents
  | None => inl KeyError
  end.

(** [FAISS.from_documents(documents, embeddings)]: the texts are embedded,
    then the index is built over the vectors. *)
Definition FAISS_from_documents (documents : list Document)
    (embeddings : OpenAIEmbeddings O) : Py (FAISS O) :=
  vectors ← call (embed_documents (page_content <$> documents))
                 (embed L embeddings (page_content <$> documents));
  call FAISS_index (faiss_build L documents vectors).

(** In [7] *)
Definition chatbot_without_customization (question : string) : Py string :=
  client ← call OpenAI_init (openai_new L (openai_api_key L) openai_api_base);
  response ← call (chat_completions_create "gpt-3.5-turbo" question 150)
                  (completions_create L client "gpt-3.5-turbo"
                     [("user", question)] 150);
  choice ← list_getitem (choices response) 0;
  match content (message choice) with
  | Some text => mret (strip L text)
  | None => raise AttributeError
  end.

(** [qa_chain.invoke({"question": question, "chat_history": chat_history})].
    When the caller gave no [chat_history] the dict holds the default list
    object itself, so whatever the library does to that list stays in the
    kernel. *)
Definition invoke_chain (qa_chain : ConversationalRetrievalChain O)
    (question : string) (chat_history : option (list (string * string)))
    : Py (gmap string string) :=
  fun w =>
    let h := match chat_history with
             | Some h => h
             | None => chat_history_default w
             end in
    let out := invoke L qa_chain question h in
    let w1 := log (Call (chain_invoke question h)) w in
    let w2 := match chat_history with
              | Some _ => w1
              | None => {| events := events w1; chat_history_default := out.2 |}
              end in
    match out.1 with
    | inr answer => (inr answer, w2)
    | inl e => (inl e, log (Raised e) w2)
    end.

(** In [8], the [def]: [chat_model] and [retriever] are the globals of the
    cell; [chat_history] is [None] when the caller omits it. *)
Definition chatbot_with_langchain (chat_model : ChatOpenAI O)
    (retriever : VectorStoreRetriever O)
    (question : string) (chat_history : option (list (string * string)))
    : Py string :=
  qa_chain ← call ConversationalRetrievalChain_from_llm
                  (from_llm L chat_model retriever);
  result ← invoke_chain qa_chain question chat_history;
  getitem result "answer".

(** Executing the [def] creates the default list, empty. *)
Definition def_chatbot_with_langchain : Py unit :=
  fun w => (inr tt, {| events := events w; chat_history_default := [] |}).

End ChatbotFunctions.

Module Chatbot.
Section Cells.
Context {O : Opaque} (L : Lib O).

(** In [2], In [3] *)
Definition In_2 : Py unit :=
  call load_dotenv (dotenv_load L) ;;
  display "load_dotenv()".

Definition In_3 : Py (option string) :=
  call (os_getenv "OPENAI_API_KEY") (inr (getenv L "OPENAI_API_KEY")).

(** In [4] *)
Definition In_4 : Py DataFrame :=
  df ← call (pd_read_csv "data/character_descriptions.csv")
            (read_csv L "data/character_descriptions.csv");
  add_text df.

(** In [5], In [6] *)
Definition In_5 : Py unit := display "df[['Name', 'Description', 'text']].head()".
Definition In_6 : Py unit := display "df.shape".

(** In [8] *)
Definition In_8 (df : DataFrame) : Py (ChatOpenAI O * VectorStoreRetriever O) :=
  documents ← call (DataFrameLoader_load "text") (load_documents df "text");
  embeddings ← call OpenAIEmbeddings_init
                    (embeddings_new L (openai_api_key L) openai_api_base);
  vectorstore ← FAISS_from_documents L documents embeddings;
  chat_model ← call (ChatOpenAI_init "gpt-3.5-turbo")
                    (chat_model_new L "gpt-3.5-turbo" (openai_api_key L) openai_api_base);
  retriever ← call as_retriever (faiss_as_retriever L vectorstore);
  _ ← call ConversationalRetrievalChain_from_llm (from_llm L chat_model retriever);
  def_chatbot_with_langchain ;;
  mret (chat_model, retriever).

(** In [9] *)
Definition questions : list string := [
  "Who is Jack and what issues is he facing?";
  "How is Sarah related to Jack?";
  "Who is Alice?"
].

Definition In_9 (chat_model : ChatOpenAI O) (retriever : VectorStoreRetriever O)
    : Py unit :=
  for_each questions (fun q =>
    print ("Question: " +:+ q +:+ nl) ;;
    print "Answer WITHOUT customization:" ;;
    answer ← chatbot_without_customization L q;
    print answer ;;
    print "---" ;;
    print "Answer WITH LangChain RAG customization:" ;;
    answer ← chatbot_with_langchain L chat_model retriever q None;
    print answer ;;
    print (string_mul "=" 80 +:+ nl)).

(** The notebook, run top to bottom. *)
Definition notebook : Py unit :=
  In_2 ;;
  _ ← In_3;
  df ← In_4;
  In_5 ;;
  In_6 ;;
  globals ← In_8 df;
  In_9 globals.1 globals.2.

End Cells.
End Chatbot.

(** ** Observing a run *)

#[global] Instance exn_eq_dec : EqDecision exn.
Proof. solve_decision. Defined.

#[global] Instance libcall_eq_dec : EqDecision libcall.
Proof. solve_decision. Defined.

#[global] Instance event_eq_dec : EqDecision event.
Proof. solve_decision. Defined.

(** The world after some more events. *)
Definition extend (w : world) (new : list event) : world :=
  {| events := events w ++ new; chat_history_default := chat_history_default w |}.

(** The lines printed, and the number of examples taken from a dataset
    iterator, in a stretch of events. *)
Definition printed (new : list event) : list string :=
  omap (fun e => match e with Printed text => Some text | _ => None end) new.

Definition fetched (new : list event) : nat :=
  length (filter (fun e => e = Call Dataset_next) new).

(** The three lines that [show_one_example_per_label] prints for an
    example. *)
Definition shown (e : example) : list string := [
  nl +:+ "Label: " +:+ pretty (label e) +:+ " (" +:+ default "" (label_map !! label e) +:+ ")";
  "Premise: " +:+ premise e;
  "Hypothesis: " +:+ hypothesis e
].

(** The events of a run that started in [w] and ended in [w']. *)
Definition new_events (w w' : world) : list event :=
  drop (length (events w)) (events w').

(** Example [e] is at position [i] of [subset], and no example before it
    carries its label. *)
Definition first_with_its_label (subset : list example) (i : nat) (e : example) : Prop :=
  subset !! i = Some e ∧
  ∀ j e', (j < i)%nat → subset !! j = Some e' → label e' ≠ label e.

(** The directory that a call writes model files to, for the calls that
    save. *)
Definition saved_to (e : event) : option string :=
  match e with
  | Call (Trainer_save_checkpoint dir _) => Some dir
  | Call (PeftModel_save_pretrained dir) => Some dir
  | _ => None
  end.

(** The inputs handed to a retrieval chain. *)
Definition submitted (e : event) : option (string * list (string * string)) :=
  match e with
  | Call (chain_invoke question chat_history) => Some (question, chat_history)
  | _ => None
  end.

(** A sequence of steps respects an order of the kinds of step, given by
    their ranks, when no step comes before a step of lower rank. *)
Definition in_order {T} (rank : T -> nat) (steps : list T) : Prop :=
  ∀ i j s t, (i < j)%nat → steps !! i = Some s → steps !! j = Some t →
             (rank s ≤ rank t)%nat.

Module FineTuningSteps.

(** The steps of the fine-tuning notebook that the specification names,
    in the order it names them. *)
Inductive step :=
  | DataLoading
  | Tokenization
  | ModelLoading
  | AdapterInjection
  | TrainingLoop
  | MetricComputation
  | CheckpointSave.

Definition rank (s : step) : nat :=
  match s with
  | DataLoading => 0
  | Tokenization => 1
  | ModelLoading => 2
  | AdapterInjection => 3
  | TrainingLoop => 4
  | MetricComputation => 5
  | CheckpointSave => 6
  end.

(** The step that a library call belongs to. Calls that belong to none
    (device placement, subsetting, output) are left out. *)
Definition step_of (e : event) : option step :=
  match e with
  | Call (load_dataset _) => Some DataLoading
  | Call tokenizer_call => Some Tokenization
  | Call (AutoModelForSequenceClassification_from_pretrained _ _) => Some ModelLoading
  | Call get_peft_model => Some AdapterInjection
  | Call (Trainer_training_epoch _) => Some TrainingLoop
  | Call torch_argmax | Call sk_f1_score
  | Call sk_precision_score | Call sk_recall_score => Some MetricComputation
  | Call (Trainer_save_checkpoint _ _) | Call (PeftModel_save_pretrained _) =>
      Some CheckpointSave
  | _ => None
  end.

Definition steps (new : list event) : list step := omap step_of new.

End FineTuningSteps.

Module ChatbotSteps.

(** The steps of the chatbot notebook that the specification names, in the
    order it names them. *)
Inductive step :=
  | CsvLoad
  | TextConcatenation
  | EmbeddingGeneration
  | VectorStoreConstruction
  | RetrievalChainConstruction
  | QuestionAnswering
  | PrintedComparison.

Definition rank (s : step) : nat :=
  match s with
  | CsvLoad => 0
  | TextConcatenation => 1
  | EmbeddingGeneration => 2
  | VectorStoreConstruction => 3
  | RetrievalChainConstruction => 4
  | QuestionAnswering => 5
  | PrintedComparison => 6
  end.

Definition step_of (e : event) : option step :=
  match e with
  | Call (pd_read_csv _) => Some CsvLoad
  | Call (DataFrame_setitem _) => Some TextConcatenation
  | Call (embed_documents _) => Some EmbeddingGeneration
  | Call FAISS_index => Some VectorStoreConstruction
  | Call ConversationalRetrievalChain_from_llm => Some RetrievalChainConstruction
  | Call (chat_completions_create _ _ _) | Call (chain_invoke _ _) =>
      Some QuestionAnswering
  | Printed _ => Some PrintedComparison
  | _ => None
  end.

Definition steps (new : list event) : list step := omap step_of new.

End ChatbotSteps.

(** ** Runs in which no library call fails *)

(** What the fine-tuning notebook needs from the libraries to run to its
    end: MultiNLI has the three splits, with at least 50000 training rows
    and 4000 matched validation rows; the tokenizer answers with one
    encoding per pair; the model scores every row on at least one class;
    and no call raises. *)
Record fine_tuning_succeeds {O} (L : Lib O) : Prop := {
  ok_load_dataset :
    ∃ dataset train matched mismatched,
      hub_load_dataset L "multi_nli" = inr dataset ∧
      split_lookup dataset "train" = Some train ∧
      split_lookup dataset "validation_matched" = Some matched ∧
      split_lookup dataset "validation_mismatched" = Some mismatched ∧
      (50000 ≤ length train)%nat ∧ (4000 ≤ length matched)%nat;
  ok_tokenizer : ∀ name, ∃ t, tokenizer_from_pretrained L name = inr t;
  ok_tokenize : ∀ t ps hs padding truncation,
      ∃ encodings, tokenize L t ps hs padding truncation = inr encodings ∧
                   length encodings = length ps;
  ok_model : ∀ name n, ∃ m, model_from_pretrained L name n = inr m;
  ok_model_to : ∀ m d, ∃ m', model_to L m d = inr m';
  ok_trainer : ∀ m a, trainer_new L m a = inr tt;
  ok_prediction : ∀ m rows bs,
      ∃ logits loss, prediction_loop L m rows bs = inr (logits, loss) ∧
                     Forall (fun row => row ≠ []) logits;
  ok_f1 : ∀ y_true y_pred average, ∃ v, f1_score L y_true y_pred average = inr v;
  ok_precision : ∀ y_true y_pred average,
      ∃ v, precision_score L y_true y_pred average = inr v;
  ok_recall : ∀ y_true y_pred average,
      ∃ v, recall_score L y_true y_pred average = inr v;
  ok_get_peft_model : ∀ m c, ∃ m', peft_get_peft_model L m c = inr m';
  ok_print_trainable : ∀ m, peft_print_trainable_parameters L m = inr tt;
  ok_epoch : ∀ m rows a e, ∃ m', training_epoch L m rows a e = inr m';
  ok_checkpoint : ∀ m dir e, save_checkpoint L m dir e = inr tt;
  ok_load_best : ∀ m dir, ∃ m', load_best_model L m dir = inr m';
  ok_save_pretrained : ∀ m dir, peft_save_pretrained L m dir = inr tt
}.

(** What the chatbot notebook needs: the CSV has the four columns in every
    row; a completion has a first choice with a text; a chain's result has
    an answer; and no call raises. *)
Record chatbot_succeeds {O} (L : Lib O) : Prop := {
  ok_dotenv : ∃ b, dotenv_load L = inr b;
  ok_read_csv :
    ∃ df, read_csv L "data/character_descriptions.csv" = inr df ∧
          Forall (fun row : gmap string string =>
                    is_Some (row !! "Name") ∧ is_Some (row !! "Description") ∧
                    is_Some (row !! "Medium") ∧ is_Some (row !! "Setting")) df;
  ok_embeddings : ∀ key base, ∃ emb, embeddings_new L key base = inr emb;
  ok_embed : ∀ emb texts, ∃ vectors, embed L emb texts = inr vectors;
  ok_faiss : ∀ documents vectors, ∃ store, faiss_build L documents vectors = inr store;
  ok_chat_model : ∀ name key base, ∃ m, chat_model_new L name key base = inr m;
  ok_retriever : ∀ store, ∃ rt, faiss_as_retriever L store = inr rt;
  ok_from_llm : ∀ m rt, ∃ chain, from_llm L m rt = inr chain;
  ok_invoke : ∀ chain q h,
      ∃ res answer, (invoke L chain q h).1 = inr res ∧ res !! "answer" = Some answer;
  ok_client : ∀ key base, ∃ client, openai_new L key base = inr client;
  ok_completion : ∀ client model messages max_tokens,
      ∃ text rest,
        completions_create L client model messages max_tokens
          = inr {| choices := {| message := {| content := Some text |} |} :: rest |}
}.

(** The libraries leave the list passed as [chat_history] as they found
    it. *)
Definition invoke_reads_only {O} (L : Lib O) : Prop :=
  ∀ chain q h, (invoke L chain q h).2 = h.

(** ** A stand-in library, for running the model

    Every opaque object is a token. MultiNLI is 50000 training rows and
    4000 matched validation rows, all the same; every call returns. *)
Definition tokens : Opaque := {|
  PreTrainedTokenizer := unit; PreTrainedModel := unit;
  OpenAIEmbeddings := unit; FAISS := unit; ChatOpenAI := unit;
  VectorStoreRetriever := unit; ConversationalRetrievalChain := unit;
  OpenAI := unit
|}.

Definition stand_in_example : example :=
  {| label := 1; premise := "A man is sleeping."; hypothesis := "A man is awake." |}.

Definition stand_in_row : features :=
  {| encoded := {| input_ids := [101; 102]; attention_mask := [1; 1] |};
     labels := 1 |}.

Definition stand_in_tokenized : DatasetDict features :=
  [("train", replicate 50000 stand_in_row);
   ("validation_matched", replicate 4000 stand_in_row)].

Definition stand_in_character : gmap string string :=
  {[ "Name" := "Jack"; "Description" := "A businessman.";
     "Medium" := "Play"; "Setting" := "England" ]}.

Definition stand_in : Lib tokens :=
  Build_Lib tokens
    (* hub_load_dataset *)
    (fun _ => inr [("train", replicate 50000 stand_in_example);
                   ("validation_matched", replicate 4000 stand_in_example);
                   ("validation_mismatched", [])])
    (* tokenizer_from_pretrained *) (fun _ => inr tt)
    (* tokenize *)
    (fun _ ps _ _ _ =>
       inr ((fun _ => {| input_ids := [101; 102]; attention_mask := [1; 1] |}) <$> ps))
    (* model_from_pretrained *) (fun _ _ => inr tt)
    (* cuda_is_available *) false
    (* model_to *) (fun _ _ => inr tt)
    (* trainer_new *) (fun _ _ => inr tt)
    (* prediction_loop *) (fun _ rows _ => inr ((fun _ => [0; 1; 0]%Q) <$> rows, 1%Q))
    (* training_epoch *) (fun _ _ _ _ => inr tt)
    (* save_checkpoint *) (fun _ _ _ => inr tt)
    (* load_best_model *) (fun _ _ => inr tt)
    (* f1_score *) (fun _ _ _ => inr (1 # 3)%Q)
    (* precision_score *) (fun _ _ _ => inr (1 # 3)%Q)
    (* recall_score *) (fun _ _ _ => inr (1 # 3)%Q)
    (* peft_get_peft_model *) (fun _ _ => inr tt)
    (* peft_print_trainable_parameters *) (fun _ => inr tt)
    (* peft_save_pretrained *) (fun _ _ => inr tt)
    (* dotenv_load *) (inr true)
    (* getenv *) (fun _ => None)
    (* openai_api_key *) None
    (* read_csv *) (fun _ => inr [stand_in_character])
    (* embeddings_new *) (fun _ _ => inr tt)
    (* embed *) (fun _ texts => inr ((fun _ => [0%Q]) <$> texts))
    (* faiss_build *) (fun _ _ => inr tt)
    (* chat_model_new *) (fun _ _ _ => inr tt)
    (* faiss_as_retriever *) (fun _ => inr tt)
    (* from_llm *) (fun _ _ => inr tt)
    (* invoke *) (fun _ q h => (inr {[ "answer" := "about: " +:+ q ]}, h))
    (* openai_new *) (fun _ _ => inr tt)
    (* completions_create *)
    (fun _ _ _ _ =>
       inr {| choices := [ {| message := {| content := Some "I do not know." |} |} ] |})
    (* strip *) (fun s => s).

(** ** The code written in the repository *)

(** A function (or statement) of the notebooks, as a map from its input to
    its run, given the libraries. *)
Record authored := {
  fn_input : Opaque -> Type;
  fn_output : Type;
  fn_body : ∀ O, Lib O -> fn_input O -> Py fn_output
}.

Definition fn_show_one_example_per_label : authored := {|
  fn_input := fun _ => (list example * nat)%type;
  fn_output := unit;
  fn_body := fun _ _ x => show_one_example_per_label x.1 x.2
|}.

Definition fn_preprocess_function : authored := {|
  fn_input := fun O => (PreTrainedTokenizer O * list example)%type;
  fn_output := (list encoding * list Z)%type;
  fn_body := fun _ L x => preprocess_function L x.1 x.2
|}.

Definition fn_compute_metrics : authored := {|
  fn_input := fun _ => (list (list Q) * list Z)%type;
  fn_output := gmap string Q;
  fn_body := fun _ L x => compute_metrics L x
|}.

Definition fn_add_text : authored := {|
  fn_input := fun _ => DataFrame;
  fn_output := DataFrame;
  fn_body := fun _ _ df => add_text df
|}.

Definition fn_chatbot_without_customization : authored := {|
  fn_input := fun _ => string;
  fn_output := string;
  fn_body := fun _ L question => chatbot_without_customization L question
|}.

Definition fn_chatbot_with_langchain : authored := {|
  fn_input := fun O => (ChatOpenAI O * VectorStoreRetriever O * string
                        * option (list (string * string)))%type;
  fn_output := string;
  fn_body := fun _ L x => chatbot_with_langchain L x.1.1.1 x.1.1.2 x.1.2 x.2
|}.

Definition repository_code : list authored := [
  fn_show_one_example_per_label;
  fn_preprocess_function;
  fn_compute_metrics;
  fn_add_text;
  fn_chatbot_without_customization;
  fn_chatbot_with_langchain
].

(** A function computes by logic of its own when its run on an input is
    the same whatever the libraries answer, and is not the same on all
    inputs. It delegates when its run changes with the libraries' answers. *)
Definition own_logic (f : authored) : Prop :=
  (∀ O (L1 L2 : Lib O) x w, fn_body f O L1 x w = fn_body f O L2 x w) ∧
  (∃ O (L : Lib O) x y w, fn_body f O L x w ≠ fn_body f O L y w).

Definition delegates (f : authored) : Prop :=
  ∃ O (L1 L2 : Lib O) x w, fn_body f O L1 x w ≠ fn_body f O L2 x w.

(** ** Calls of [chatbot_with_langchain], one after another *)

Fixpoint after_calls {O} (L : Lib O) (chat_model : ChatOpenAI O)
    (retriever : VectorStoreRetriever O)
    (calls : list (string * option (list (string * string)))) (w : world) : world :=
  match calls with
  | [] => w
  | c :: rest =>
      after_calls L chat_model retriever rest
        (chatbot_with_langchain L chat_model retriever c.1 c.2 w).2
  end.

(** ** Notions used to state the properties *)

(** Position [p] of [row] holds [x], no entry is larger and every earlier
    entry is smaller. *)
Definition first_max_at (row : list Q) (p : nat) (x : Q) : Prop :=
  row !! p = Some x ∧
  (∀ j y, row !! j = Some y → (y <= x)%Q) ∧
  (∀ j y, (j < p)%nat → row !! j = Some y → (y < x)%Q).

(** The text of a character's row. *)
Definition character_text (name description medium setting : string) : string :=
  name +:+ ": " +:+ description +:+ " (" +:+ medium +:+ ", " +:+ setting +:+ ")".

(** Positions in the tail of a list, seen from the whole list. *)
Definition shift (picks : list (nat * example)) : list (nat * example) :=
  prod_map S id <$> picks.

(** The world of a kernel that has run nothing yet. *)
Definition fresh_kernel : world := World [] [].

(** *** The discipline of a run *)

(** An event that is not a raise, and whose call, if it is one, is among
    the calls [Q]. *)
Definition quiet (Q : libcall → Prop) (e : event) : Prop :=
  match e with
  | Call c => Q c
  | Raised _ => False
  | _ => True
  end.

(** A run that returns has raised nothing; a run that ends with an
    exception has raised it, once, as the last thing it did. *)
Definition disciplined (Q : libcall → Prop) {A} (r : result A) (new : list event) : Prop :=
  match r with
  | inr _ => Forall (quiet Q) new
  | inl e => ∃ before, new = before ++ [Raised e] ∧ Forall (quiet Q) before
  end.

Definition sound (Q : libcall → Prop) {A} (m : Py A) : Prop :=
  ∀ w, ∃ new, events (m w).2 = events w ++ new ∧ disciplined Q (m w).1 new.

(** An exception raised in a run is the run's outcome, and the last thing
    that happens in it. *)
Definition unhandled {A} (m : Py A) : Prop :=
  ∀ w e,
    (Raised e ∈ new_events w (m w).2 ↔ (m w).1 = inl e) ∧
    (Raised e ∈ new_events w (m w).2 →
     ∃ before, new_events w (m w).2 = before ++ [Raised e] ∧
               ∀ e', Raised e' ∉ before).

(** The calls the fine-tuning notebook may make: any, but a save goes to
    the directory that the notebook names for it. *)
Definition fine_tuning_call (c : libcall) : Prop :=
  match c with
  | Trainer_save_checkpoint dir _ => dir = "./peft_multi_nli_results"
  | PeftModel_save_pretrained dir => dir = "./peft_multi_nli"
  | _ => True
  end.

(** The calls the chatbot notebook may make: any but a save. *)
Definition chatbot_call (c : libcall) : Prop :=
  match c with
  | Trainer_save_checkpoint _ _ | PeftModel_save_pretrained _ => False
  | _ => True
  end.

(** Where a call saves, as the notebooks configure it. *)
Definition saves_as_configured (e : event) : Prop :=
  match e with
  | Call (Trainer_save_checkpoint dir _) => dir = "./peft_multi_nli_results"
  | Call (PeftModel_save_pretrained dir) => dir = "./peft_multi_nli"
  | _ => saved_to e = None
  end.

(** The [compute_metrics] callback of a trainer is disciplined. *)
Definition sound_callback {O} (trainer : Trainer (O:=O)) : Prop :=
  ∀ f x, trainer_compute_metrics trainer = Some f → sound fine_tuning_call (f x).

(** *** Runs that return *)

(** [m], started in [w], returns a value after some events, and the two
    satisfy [P]; nothing else in the world changes. *)
Definition returns {A} (m : Py A) (w : world) (P : A → list event → Prop) : Prop :=
  ∃ a new, m w = (inr a, extend w new) ∧ P a new.

(** The same, when the rest of the world may change. *)
Definition finishes {A} (m : Py A) (w : world) (P : A → list event → Prop) : Prop :=
  ∃ a w' new, m w = (inr a, w') ∧ events w' = events w ++ new ∧ P a new.

(** The events of one evaluation, and of one epoch of training with
    evaluation and checkpointing at its end. *)
Definition evaluation_events : list event :=
  [Call Trainer_prediction_loop; Call torch_argmax; Call sk_f1_score;
   Call sk_precision_score; Call sk_recall_score].

Definition epoch_events (dir : string) (e : nat) : list event :=
  Call (Trainer_training_epoch e) :: evaluation_events
  ++ [Call (Trainer_save_checkpoint dir e)].

(** The steps of one epoch, and of one question of the chatbot's loop. *)
Definition fine_tuning_epoch_steps : list FineTuningSteps.step :=
  FineTuningSteps.TrainingLoop
  :: replicate 4 FineTuningSteps.MetricComputation
  ++ [FineTuningSteps.CheckpointSave].

Definition question_steps : list ChatbotSteps.step :=
  [ChatbotSteps.PrintedComparison; ChatbotSteps.PrintedComparison;
   ChatbotSteps.QuestionAnswering; ChatbotSteps.PrintedComparison;
   ChatbotSteps.PrintedComparison; ChatbotSteps.PrintedComparison;
   ChatbotSteps.RetrievalChainConstruction; ChatbotSteps.QuestionAnswering;
   ChatbotSteps.PrintedComparison; ChatbotSteps.PrintedComparison].

(** *** Two more libraries *)

(** A library that is out of reach: every call raises. *)
Definition offline_error : exn := LibraryError "ConnectionError".

Definition offline : Lib tokens :=
  Build_Lib tokens
    (fun _ => inl offline_error) (fun _ => inl offline_error)
    (fun _ _ _ _ _ => inl offline_error) (fun _ _ => inl offline_error)
    false
    (fun _ _ => inl offline_error) (fun _ _ => inl offline_error)
    (fun _ _ _ => inl offline_error) (fun _ _ _ _ => inl offline_error)
    (fun _ _ _ => inl offline_error) (fun _ _ => inl offline_error)
    (fun _ _ _ => inl offline_error) (fun _ _ _ => inl offline_error)
    (fun _ _ _ => inl offline_error)
    (fun _ _ => inl offline_error) (fun _ => inl offline_error)
    (fun _ _ => inl offline_error)
    (inl offline_error) (fun _ => None) None (fun _ => inl offline_error)
    (fun _ _ => inl offline_error) (fun _ _ => inl offline_error)
    (fun _ _ => inl offline_error) (fun _ _ _ => inl offline_error)
    (fun _ => inl offline_error) (fun _ _ => inl offline_error)
    (fun _ _ h => (inl offline_error, h))
    (fun _ _ => inl offline_error) (fun _ _ _ _ => inl offline_error)
    (fun s => s).

(** The stand-in library, but with a chain that appends each exchange to
    the list it was given as [chat_history]. *)
Definition remembering : Lib tokens :=
  Build_Lib tokens
    (hub_load_dataset stand_in) (tokenizer_from_pretrained stand_in)
    (tokenize stand_in) (model_from_pretrained stand_in)
    (cuda_is_available stand_in) (model_to stand_in) (trainer_new stand_in)
    (prediction_loop stand_in) (training_epoch stand_in)
    (save_checkpoint stand_in) (load_best_model stand_in)
    (f1_score stand_in) (precision_score stand_in) (recall_score stand_in)
    (peft_get_peft_model stand_in) (peft_print_trainable_parameters stand_in)
    (peft_save_pretrained stand_in)
    (dotenv_load stand_in) (getenv stand_in) (openai_api_key stand_in)
    (read_csv stand_in) (embeddings_new stand_in) (embed stand_in)
    (faiss_build stand_in) (chat_model_new stand_in)
    (faiss_as_retriever stand_in) (from_llm stand_in)
    (fun _ q h => (inr {[ "answer" := "about: " +:+ q ]},
                   h ++ [(q, "about: " +:+ q)]))
    (openai_new stand_in) (completions_create stand_in) (strip stand_in).

(** ** The specification's sentences that the code does not bear out *)

(** Every run of the fine-tuning notebook that reaches its end goes
    through the steps in the order the specification gives. *)
Definition fine_tuning_in_claimed_order {O} (L : Lib O) (w : world) : Prop :=
  ∀ new, FineTuning.notebook L w = (inr tt, extend w new) →
         in_order FineTuningSteps.rank (FineTuningSteps.steps new).

(** The same for the chatbot notebook. *)
Definition chatbot_in_claimed_order {O} (L : Lib O) (w : world) : Prop :=
  ∀ w', Chatbot.notebook L w = (inr tt, w') →
        in_order ChatbotSteps.rank (ChatbotSteps.steps (new_events w w')).

(** Nothing is saved but the adapter directory. *)
Definition only_adapter_saved {O} (L : Lib O) (w : world) : Prop :=
  Forall (λ e, saved_to e = None ∨ saved_to e = Some "./peft_multi_nli")
         (new_events w (FineTuning.notebook L w).2).

(** No code of the repository computes by logic of its own. *)
Definition everything_delegated : Prop :=
  Forall (λ f, ¬ own_logic f) repository_code.

(** * Properties *)

(** ** Running a computation step by step *)

Lemma run_bind {A B} (m : Py A) (k : A -> Py B) w :
  (m ≫= k) w = match m w with
               | (inr a, w') => k a w'
               | (inl e, w') => (inl e, w')
               end.
Proof. reflexivity. Qed.

Lemma run_ret {A} (a : A) w : (mret a : Py A) w = (inr a, w).
Proof. reflexivity. Qed.

Lemma run_call {A} c (a : A) w : call c (inr a) w = (inr a, log (Call c) w).
Proof. reflexivity. Qed.

Lemma run_print s w : print s w = (inr tt, log (Printed s) w).
Proof. reflexivity. Qed.

Lemma extend_nil w : extend w [] = w.
Proof. destruct w. unfold extend. simpl. by rewrite app_nil_r. Qed.

Lemma extend_extend w a b : extend (extend w a) b = extend w (a ++ b).
Proof. unfold extend. simpl. by rewrite app_assoc. Qed.

Lemma log_extend e w new : log e (extend w new) = extend w (new ++ [e]).
Proof. unfold log, extend. simpl. by rewrite app_assoc. Qed.

Lemma log_as_extend e w : log e w = extend w [e].
Proof. reflexivity. Qed.

Lemma select_rows_range {A} (rows : list A) a n :
  (a + n ≤ length rows)%nat →
  select_rows rows (seq a n) = inr (take n (drop a rows)).
Proof.
  revert a. induction n as [|n IH]; intros a Hle; simpl.
  - by rewrite take_0.
  - destruct (lookup_lt_is_Some_2 rows a) as [x Hx]; [lia|].
    rewrite Hx, IH by lia.
    rewrite (drop_S _ _ _ Hx). reflexivity.
Qed.

Lemma select_from_offset {A} (rows : list A) offset :
  select_rows rows (py_range offset (length rows)) = inr (drop offset rows).
Proof.
  unfold py_range.
  destruct (decide (offset ≤ length rows)%nat) as [Hle|Hgt].
  - rewrite select_rows_range by lia.
    rewrite take_ge; [done|]. rewrite length_drop. lia.
  - replace (length rows - offset)%nat with 0%nat by lia. simpl.
    by rewrite drop_ge by lia.
Qed.

Lemma label_map_lookup (l : Z) :
  l ∈ [0; 1; 2] → ∃ name, label_map !! l = Some name.
Proof.
  intros H. repeat (apply elem_of_cons in H as [->|H]); try by eexists.
  by apply elem_of_nil in H.
Qed.

Lemma run_bind_assoc {A B C} (m : Py A) (k1 : A -> Py B) (k2 : B -> Py C) w :
  ((m ≫= k1) ≫= k2) w = (m ≫= (fun a => k1 a ≫= k2)) w.
Proof. rewrite !run_bind. by destruct (m w) as [[e|a] w']. Qed.

Lemma run_bind_ret {A B} (a : A) (k : A -> Py B) w : (mret a ≫= k) w = k a w.
Proof. reflexivity. Qed.

Lemma run_bind_call {A B} c (a : A) (k : A -> Py B) w :
  (call c (inr a) ≫= k) w = k a (log (Call c) w).
Proof. reflexivity. Qed.

Lemma run_bind_call_raise {A B} c e (k : A -> Py B) w :
  (call c (inl e) ≫= k) w = (inl e, log (Raised e) (log (Call c) w)).
Proof. reflexivity. Qed.

Lemma run_bind_print {B} s (k : unit -> Py B) w :
  (print s ≫= k) w = k tt (log (Printed s) w).
Proof. reflexivity. Qed.

Lemma run_bind_display {B} s (k : unit -> Py B) w :
  (display s ≫= k) w = k tt (log (Displayed s) w).
Proof. reflexivity. Qed.

Lemma run_bind_raise {A B} e (k : A -> Py B) w :
  (raise e ≫= k) w = (inl e, log (Raised e) w).
Proof. reflexivity. Qed.

Ltac py_step :=
  first
    [ rewrite run_bind_assoc
    | rewrite run_bind_ret
    | rewrite run_bind_call
    | rewrite run_bind_print
    | rewrite run_bind_display
    | rewrite run_ret
    | rewrite run_call
    | rewrite run_print ].
Ltac py_run := repeat py_step.

Ltac world := rewrite ?log_as_extend, ?extend_extend.

(** ** One example per label *)

Lemma label_of_interest (l : Z) : l ∈ [0; 1; 2] → l ∈ ({[ 0; 1; 2 ]} : gset Z).
Proof.
  rewrite !elem_of_cons, elem_of_nil, !elem_of_union, !elem_of_singleton. tauto.
Qed.

Lemma show_loop_cons e rest (seen : gset Z) w :
  show_loop (e :: rest) seen w =
    if bool_decide (label e ∈ [0; 1; 2]) && bool_decide (label e ∉ seen)
    then
      let w' := extend w (Call Dataset_next :: (Printed <$> shown e)) in
      if bool_decide (size ({[ label e ]} ∪ seen) = 3%nat)
      then (inr tt, w')
      else show_loop rest ({[ label e ]} ∪ seen) w'
    else
      let w' := extend w [Call Dataset_next] in
      if bool_decide (size seen = 3%nat)
      then (inr tt, w')
      else show_loop rest seen w'.
Proof.
  cbn [show_loop]. rewrite run_bind_call, log_as_extend.
  destruct (bool_decide (label e ∈ [0; 1; 2])) eqn:Hin; simpl andb; cbv iota; cycle 1.
  { rewrite run_bind_ret. by destruct (bool_decide (size seen = 3%nat)). }
  destruct (bool_decide (label e ∉ seen)) eqn:Hseen; cbv iota; cycle 1.
  { rewrite run_bind_ret. by destruct (bool_decide (size seen = 3%nat)). }
  apply bool_decide_eq_true in Hin.
  destruct (label_map_lookup _ Hin) as [name Hname].
  unfold shown. rewrite Hname. simpl default.
  unfold getitem. rewrite Hname. py_run.
  rewrite !log_extend. simpl app.
  by destruct (bool_decide (size ({[label e]} ∪ seen) = 3%nat)).
Qed.

Lemma printed_app a b : printed (a ++ b) = printed a ++ printed b.
Proof. apply omap_app. Qed.

Lemma fetched_app a b : fetched (a ++ b) = (fetched a + fetched b)%nat.
Proof. unfold fetched. by rewrite filter_app, length_app. Qed.

Lemma printed_Print (lines : list string) : printed (Printed <$> lines) = lines.
Proof. induction lines as [|l ls IH]; [done|]. cbn. f_equal. exact IH. Qed.

Lemma fetched_Print (lines : list string) : fetched (Printed <$> lines) = 0%nat.
Proof.
  induction lines as [|l ls IH]; [done|].
  unfold fetched in *. rewrite fmap_cons, filter_cons_False; done.
Qed.

Lemma first_with_its_label_shift e0 rest i e :
  label e0 ≠ label e →
  first_with_its_label rest i e →
  first_with_its_label (e0 :: rest) (S i) e.
Proof.
  intros Hne [Hi Hfirst]. split; [done|].
  intros [|j] e' Hj Hl; simpl in Hl.
  - by injection Hl as <-.
  - apply (Hfirst j); [lia|done].
Qed.

Lemma fetched_next : fetched [Call Dataset_next] = 1%nat.
Proof. reflexivity. Qed.

Lemma shift_fst picks : (shift picks).*1 = S <$> picks.*1.
Proof. unfold shift. rewrite <- !list_fmap_compose. done. Qed.

Lemma shift_snd picks : (shift picks).*2 = picks.*2.
Proof. unfold shift. rewrite <- !list_fmap_compose. done. Qed.

Lemma shift_length picks : length (shift picks) = length picks.
Proof. apply length_fmap. Qed.

Lemma shift_last picks : last (shift picks) = prod_map S id <$> last picks.
Proof. unfold shift. apply fmap_last. Qed.

Lemma shift_sorted (positions : list nat) :
  StronglySorted lt positions → StronglySorted lt (S <$> positions).
Proof.
  induction 1 as [|i l Hl IH Hi]; [constructor|].
  rewrite fmap_cons. constructor; [done|].
  rewrite Forall_fmap. eapply Forall_impl; [exact Hi|]. simpl. lia.
Qed.

Lemma show_loop_spec subset : ∀ (seen : gset Z) w,
  seen ⊆ {[ 0; 1; 2 ]} → (size seen < 3)%nat →
  ∃ (picks : list (nat * example)) new,
    show_loop subset seen w = (inr tt, extend w new) ∧
    printed new = picks.*2 ≫= shown ∧
    Forall (λ p, first_with_its_label subset p.1 p.2 ∧
                 label p.2 ∈ [0; 1; 2] ∧ label p.2 ∉ seen) picks ∧
    StronglySorted lt picks.*1 ∧
    (size seen + length picks ≤ 3)%nat ∧
    (fetched new ≤ length subset)%nat ∧
    (size seen + length picks = 3 → ∃ p, last picks = Some p ∧ fetched new = S p.1)%nat ∧
    (size seen + length picks < 3 → fetched new = length subset)%nat ∧
    (∀ j e, (j < fetched new)%nat → subset !! j = Some e → label e ∈ [0; 1; 2] →
            label e ∈ seen ∨ label e ∈ label <$> picks.*2).
Proof.
  induction subset as [|e rest IH]; intros seen w Hsub Hsize.
  { exists [], []. rewrite extend_nil. cbn.
    repeat split; try done; try lia. constructor. }
  rewrite show_loop_cons.
  destruct (bool_decide (label e ∈ [0; 1; 2] ∧ label e ∉ seen)) eqn:Hnew.
  - (* a label not seen before: printed *)
    apply bool_decide_eq_true in Hnew as [Hin Hseen].
    rewrite !bool_decide_eq_true_2 by done. simpl andb. cbv iota zeta.
    assert (Hsize' : size ({[label e]} ∪ seen) = S (size seen)).
    { rewrite size_union by (by apply disjoint_singleton_l). by rewrite size_singleton. }
    assert (Hsub' : {[label e]} ∪ seen ⊆ ({[0; 1; 2]} : gset Z)).
    { apply union_subseteq. split; [|done]. apply singleton_subseteq_l.
      by apply label_of_interest. }
    change (Call Dataset_next :: (Printed <$> shown e))
      with ([Call Dataset_next] ++ (Printed <$> shown e)).
    assert (Hfirst : first_with_its_label (e :: rest) 0 e).
    { split; [done|]. intros j e' Hj. lia. }
    case_bool_decide as Hfull.
    + (* the third label: break *)
      exists [(0%nat, e)], ([Call Dataset_next] ++ (Printed <$> shown e)).
      rewrite printed_app, fetched_app, printed_Print, fetched_Print, fetched_next.
      cbn [fmap list_fmap snd fst mbind list_bind length last app].
      rewrite app_nil_r.
      split; [done|]. split; [done|].
      split; [|split; [|split; [|split; [|split; [|split]]]]].
      * constructor; [|constructor]. split; [exact Hfirst|split; [exact Hin|exact Hseen]].
      * repeat constructor.
      * lia.
      * lia.
      * intros _. by exists (0%nat, e).
      * lia.
      * intros j e' Hj Hl _. right.
        assert (j = 0%nat) as -> by lia. injection Hl as <-.
        apply list_elem_of_singleton. done.
    + (* fewer than three so far: go on *)
      destruct (IH ({[label e]} ∪ seen)
                  (extend w ([Call Dataset_next] ++ (Printed <$> shown e))) Hsub')
        as (picks & new & Hrun & Hprinted & Hpicks & Hsorted & Hcount & Hle
            & Hstop & Hall & Hcomplete); [lia|].
      exists ((0%nat, e) :: shift picks),
             (([Call Dataset_next] ++ (Printed <$> shown e)) ++ new).
      rewrite Hrun, extend_extend.
      rewrite !printed_app, !fetched_app, printed_Print, fetched_Print, fetched_next, Hprinted.
      rewrite !fmap_cons, shift_fst, shift_snd. cbn [length fst snd]. rewrite shift_length.
      split; [done|]. split; [done|]. split; [|split; [|split; [|split; [|split; [|split]]]]].
      * constructor; [split; [exact Hfirst|split; [exact Hin|exact Hseen]]|].
        unfold shift. rewrite Forall_fmap. eapply Forall_impl; [exact Hpicks|].
        intros [i e'] (Hf & Hl & Hns). cbn [prod_map fst snd id] in *.
        split; [|split].
        -- apply first_with_its_label_shift; [|done].
           intros Heq. apply Hns, elem_of_union. left. by apply elem_of_singleton.
        -- exact Hl.
        -- intros Hs. apply Hns, elem_of_union. by right.
      * constructor; [by apply shift_sorted|].
        rewrite Forall_fmap. apply Forall_forall. intros; simpl; lia.
      * lia.
      * cbn. lia.
      * intros Heq. destruct Hstop as [p [Hp Hf]]; [lia|].
        exists (prod_map S id p). split.
        -- destruct picks as [|p0 picks]; [done|].
           change (last ((0%nat, e) :: shift (p0 :: picks))) with (last (shift (p0 :: picks))).
           rewrite shift_last, Hp. done.
        -- rewrite Hf. destruct p. cbn. lia.
      * intros Hlt. rewrite Hall by lia. cbn. lia.
      * intros [|j] e' Hj Hl Hlab.
        -- injection Hl as <-. right. apply list_elem_of_here.
        -- destruct (Hcomplete j e') as [Hs|Hp]; [lia|done|done| |].
           ++ apply elem_of_union in Hs as [Hs|Hs].
              ** apply elem_of_singleton in Hs. right. rewrite Hs. apply list_elem_of_here.
              ** by left.
           ++ right. by apply list_elem_of_further.
  - (* not a label of interest, or seen already: skipped *)
    apply bool_decide_eq_false in Hnew.
    rewrite <- bool_decide_and, (bool_decide_eq_false_2 _ Hnew). cbv iota zeta.
    rewrite bool_decide_eq_false_2 by lia.
    destruct (IH seen (extend w [Call Dataset_next]) Hsub Hsize)
      as (picks & new & Hrun & Hprinted & Hpicks & Hsorted & Hcount & Hle
          & Hstop & Hall & Hcomplete).
    exists (shift picks), ([Call Dataset_next] ++ new).
    rewrite Hrun, extend_extend.
    rewrite !printed_app, !fetched_app, fetched_next, Hprinted.
    rewrite shift_fst, shift_snd, shift_length.
    split; [done|]. split; [done|].
    split; [|split; [|split; [|split; [|split; [|split]]]]].
    + unfold shift. rewrite Forall_fmap. eapply Forall_impl; [exact Hpicks|].
      intros [i e'] (Hf & Hl & Hns). cbn [prod_map fst snd id] in *.
      split; [|split; [exact Hl|exact Hns]].
      apply first_with_its_label_shift; [|done].
      intros Heq. apply Hnew. rewrite Heq. done.
    + by apply shift_sorted.
    + lia.
    + cbn. lia.
    + intros Heq. destruct Hstop as [p [Hp Hf]]; [lia|].
      exists (prod_map S id p). split.
      * rewrite shift_last, Hp. done.
      * rewrite Hf. destruct p. cbn. lia.
    + intros Hlt. rewrite Hall by lia. cbn. lia.
    + intros [|j] e' Hj Hl Hlab.
      * injection Hl as <-. left.
        destruct (decide (label e ∈ seen)) as [|Hn]; [done|].
        exfalso. by apply Hnew.
      * apply (Hcomplete j e'); [lia|done|done].
Qed.

Lemma picks_labels_NoDup subset (picks : list (nat * example)) :
  StronglySorted lt picks.*1 →
  Forall (λ p, first_with_its_label subset p.1 p.2) picks →
  NoDup (label <$> picks.*2).
Proof.
  induction picks as [|[i e] picks IH]; intros Hsorted Hall; [constructor|].
  rewrite !fmap_cons in *. cbn [fst snd] in *.
  apply StronglySorted_inv in Hsorted as [Hsorted Hlt].
  apply Forall_cons in Hall as [[Hi _] Hall].
  constructor; [|by apply IH].
  intros Hdup.
  apply list_elem_of_fmap in Hdup as (e' & Heq & Hin).
  apply list_elem_of_fmap in Hin as ([j e''] & -> & Hin).
  cbn [snd] in *.
  rewrite Forall_forall in Hall. destruct (Hall _ Hin) as [_ Hfirst].
  rewrite Forall_forall in Hlt.
  assert (Hij : (i < j)%nat).
  { apply Hlt. apply list_elem_of_fmap. by exists (j, e''). }
  cbn [fst snd] in Hfirst. by apply (Hfirst i e Hij Hi).
Qed.


(** ** Downsampling *)

Lemma run_split_getitem {A} (d : DatasetDict A) name rows w :
  split_lookup d name = Some rows → split_getitem d name w = (inr rows, w).
Proof. intros H. unfold split_getitem. by rewrite H. Qed.

Lemma select_first {A} (rows : list A) n :
  (n ≤ length rows)%nat → select_rows rows (py_range 0 n) = inr (take n rows).
Proof.
  intros Hn. unfold py_range. rewrite Nat.sub_0_r.
  by rewrite select_rows_range, drop_0 by lia.
Qed.


Lemma select_rows_short {A} (rows : list A) n : ∀ a,
  (a ≤ length rows)%nat → (length rows < a + n)%nat →
  select_rows rows (seq a n) = inl IndexError.
Proof.
  induction n as [|n IH]; intros a Ha Hn; [lia|].
  cbn [seq select_rows].
  destruct (rows !! a) as [row|] eqn:Hrow; [|done].
  apply lookup_lt_Some in Hrow. rewrite IH by lia. done.
Qed.

(** ** The metrics *)

Lemma argmax_from_first_max row : ∀ prefix best_i best,
  first_max_at prefix best_i best →
  ∃ x, first_max_at (prefix ++ row)
         (argmax_from best_i best (length prefix) row) x.
Proof.
  induction row as [|x rest IH]; intros prefix best_i best (Hat & Hmax & Hfirst).
  { exists best. rewrite app_nil_r. done. }
  cbn [argmax_from].
  replace (prefix ++ x :: rest) with ((prefix ++ [x]) ++ rest)
    by (by rewrite <- app_assoc).
  replace (S (length prefix)) with (length (prefix ++ [x]))
    by (rewrite length_app; simpl; lia).
  destruct (Qle_bool x best) eqn:Hle.
  - apply Qle_bool_iff in Hle. apply IH. split; [|split].
    + by apply lookup_app_l_Some.
    + intros j y Hj. apply lookup_app_Some in Hj as [Hj|[_ Hj]]; [by eapply Hmax|].
      apply list_lookup_singleton_Some in Hj as [_ <-]. done.
    + intros j y Hlt Hj. apply lookup_app_Some in Hj as [Hj|[Hge _]]; [by eapply Hfirst|].
      apply lookup_lt_Some in Hat. lia.
  - assert (Hlt : (best < x)%Q).
    { apply Qnot_le_lt. intros H. apply Qle_bool_iff in H. congruence. }
    apply IH. split; [|split].
    + rewrite lookup_app_r by lia. by rewrite Nat.sub_diag.
    + intros j y Hj. apply lookup_app_Some in Hj as [Hj|[_ Hj]].
      * apply Qle_trans with best; [by eapply Hmax|by apply Qlt_le_weak].
      * apply list_lookup_singleton_Some in Hj as [_ <-]. apply Qle_refl.
    + intros j y Hj Hl. apply lookup_app_Some in Hl as [Hl|[Hge _]]; [|lia].
      apply Qle_lt_trans with best; [by eapply Hmax|done].
Qed.

Lemma argmax_first_max (row : list Q) :
  row ≠ [] → ∃ p x, argmax row = inr (Z.of_nat p) ∧ first_max_at row p x.
Proof.
  destruct row as [|x rest]; [done|]. intros _.
  destruct (argmax_from_first_max rest [x] 0%nat x) as [y Hy].
  { split; [done|]. split.
    - intros j y Hj. apply list_lookup_singleton_Some in Hj as [_ <-]. apply Qle_refl.
    - intros j y Hj. lia. }
  eexists _, y. split; [reflexivity|]. exact Hy.
Qed.

Lemma argmax_last_dim_spec (predictions : list (list Q)) :
  Forall (λ row, row ≠ []) predictions →
  ∃ preds, argmax_last_dim predictions = inr preds ∧
           length preds = length predictions ∧
           ∀ i row, predictions !! i = Some row →
                    ∃ p x, preds !! i = Some (Z.of_nat p) ∧ first_max_at row p x.
Proof.
  induction 1 as [|row rest Hrow Hrest (preds & Hrun & Hlen & Hspec)].
  { exists []. by repeat split. }
  destruct (argmax_first_max row Hrow) as (p & x & Hp & Hmax).
  exists (Z.of_nat p :: preds). cbn [argmax_last_dim]. rewrite Hp, Hrun.
  split; [done|]. split; [simpl; lia|].
  intros [|i] row'; simpl; [|by apply Hspec].
  intros [= <-]. by exists p, x.
Qed.

(** C1. For every pair of predictions (rows of per-class logits, none
    empty) and labels, [compute_metrics] takes as the predicted class of
    each row an index of its maximum (the first one), hands these
    predictions and the labels to the three external metric functions with
    macro averaging, and, when they return, returns a dictionary with
    exactly the keys ["f1_score"], ["precision"] and ["recall"], holding
    what [f1_score], [precision_score] and [recall_score] returned. *)
Theorem compute_metrics_wraps_metrics {O} (L : Lib O)
    (predictions : list (list Q)) (labels : list Z) (w : world) :
  Forall (λ row, row ≠ []) predictions →
  ∃ preds,
    length preds = length predictions ∧
    (∀ i row, predictions !! i = Some row →
              ∃ p x, preds !! i = Some (Z.of_nat p) ∧ first_max_at row p x) ∧
    ∀ f1 precision recall,
      f1_score L labels preds "macro" = inr f1 →
      precision_score L labels preds "macro" = inr precision →
      recall_score L labels preds "macro" = inr recall →
      ∃ metrics : gmap string Q,
        compute_metrics L (predictions, labels) w
          = (inr metrics,
             extend w [Call torch_argmax; Call sk_f1_score;
                       Call sk_precision_score; Call sk_recall_score]) ∧
        dom metrics = {[ "f1_score"; "precision"; "recall" ]} ∧
        metrics !! "f1_score" = Some f1 ∧
        metrics !! "precision" = Some precision ∧
        metrics !! "recall" = Some recall.
Proof.
  intros Hrows.
  destruct (argmax_last_dim_spec predictions Hrows) as (preds & Hrun & Hlen & Hspec).
  exists preds. split; [done|]. split; [done|].
  intros f1 precision recall Hf1 Hp Hr.
  eexists. split; [|split; [|split; [|split]]].
  - unfold compute_metrics. rewrite Hrun, run_bind_call, Hf1, run_bind_call.
    rewrite Hp, run_bind_call, Hr, run_bind_call, run_ret.
    rewrite !log_as_extend, !extend_extend. reflexivity.
  - rewrite !dom_insert_L, dom_singleton_L. set_solver.
  - by simplify_map_eq.
  - by simplify_map_eq.
  - by simplify_map_eq.
Qed.

(** ** The text column and the documents *)

Lemma string_app_assoc (a b c : string) : (a +:+ b) +:+ c = a +:+ (b +:+ c).
Proof.
  induction a as [|x a IH]; [done|].
  change (String x ((a +:+ b) +:+ c) = String x (a +:+ (b +:+ c))).
  by rewrite IH.
Qed.

Lemma column_spec (df : DataFrame) (name : string) w :
  Forall (λ row : gmap string string, is_Some (row !! name)) df →
  ∃ cells, column df name w = (inr cells, w) ∧
           Forall2 (λ (row : gmap string string) cell, row !! name = Some cell) df cells.
Proof.
  intros Hall. unfold column.
  destruct (mapM (λ row : gmap string string, row !! name) df) as [cells|] eqn:Hm.
  - exists cells. split; [done|]. by apply mapM_Some_1.
  - exfalso. apply (mapM_is_Some_2 (λ row : gmap string string, row !! name)) in Hall.
    rewrite Hm in Hall. by destruct Hall.
Qed.

Lemma add_text_run (df : DataFrame) (w : world) :
  Forall (λ row : gmap string string,
            is_Some (row !! "Name") ∧ is_Some (row !! "Description") ∧
            is_Some (row !! "Medium") ∧ is_Some (row !! "Setting")) df →
  ∃ df' documents,
    add_text df w = (inr df', extend w [Call (DataFrame_setitem "text")]) ∧
    load_documents df' "text" = inr documents ∧
    length df' = length df ∧
    length documents = length df ∧
    ∀ i row, df !! i = Some row →
      ∃ name description medium setting document,
        row !! "Name" = Some name ∧
        row !! "Description" = Some description ∧
        row !! "Medium" = Some medium ∧
        row !! "Setting" = Some setting ∧
        df' !! i = Some (<[ "text" := character_text name description medium setting ]> row) ∧
        documents !! i = Some document ∧
        page_content document = character_text name description medium setting.
Proof.
  intros Hall.
  destruct (column_spec df "Name" w) as (names & Hn & Hnames).
  { eapply Forall_impl; [exact Hall|]. by intros row (? & ? & ? & ?). }
  destruct (column_spec df "Description" w) as (descriptions & Hd & Hdescriptions).
  { eapply Forall_impl; [exact Hall|]. by intros row (? & ? & ? & ?). }
  destruct (column_spec df "Medium" w) as (media & Hm & Hmedia).
  { eapply Forall_impl; [exact Hall|]. by intros row (? & ? & ? & ?). }
  destruct (column_spec df "Setting" w) as (settings & Hs & Hsettings).
  { eapply Forall_impl; [exact Hall|]. by intros row (? & ? & ? & ?). }
  set (texts := series_add_str
       (series_add (series_add_str (series_add (series_add_str
          (series_add (series_add_str names ": ") descriptions) " (") media) ", ")
          settings) ")").
  assert (Htexts : ∀ i row, df !! i = Some row →
            ∃ name description medium setting,
              row !! "Name" = Some name ∧ row !! "Description" = Some description ∧
              row !! "Medium" = Some medium ∧ row !! "Setting" = Some setting ∧
              texts !! i = Some (character_text name description medium setting)).
  { intros i row Hi.
    destruct (Forall2_lookup_l _ _ _ _ _ Hnames Hi) as (name & Hni & Hname).
    destruct (Forall2_lookup_l _ _ _ _ _ Hdescriptions Hi) as (description & Hdi & Hdescription).
    destruct (Forall2_lookup_l _ _ _ _ _ Hmedia Hi) as (medium & Hmi & Hmedium).
    destruct (Forall2_lookup_l _ _ _ _ _ Hsettings Hi) as (setting & Hsi & Hsetting).
    exists name, description, medium, setting. repeat (split; [done|]).
    unfold texts, series_add_str, series_add, character_text.
    repeat (rewrite ?list_lookup_fmap, ?lookup_zip_with).
    rewrite Hni, Hdi, Hmi, Hsi. cbn [fmap option_fmap option_map mbind option_bind].
    by rewrite !string_app_assoc. }
  set (df' := zip_with (λ (row : gmap string string) cell, <["text" := cell]> row) df texts).
  assert (Hdf' : ∀ i row, df !! i = Some row →
            ∃ text, texts !! i = Some text ∧ df' !! i = Some (<["text" := text]> row)).
  { intros i row Hi. destruct (Htexts i row Hi) as (n & d & m & s & _ & _ & _ & _ & Ht).
    eexists. split; [exact Ht|]. unfold df'. rewrite lookup_zip_with. rewrite Hi, Ht. done. }
  assert (Hlen : length texts = length df).
  { unfold texts, series_add_str, series_add.
    repeat (rewrite ?length_fmap, ?length_zip_with).
    apply Forall2_length in Hnames, Hdescriptions, Hmedia, Hsettings. lia. }
  assert (Hlen' : length df' = length df).
  { unfold df'. rewrite length_zip_with. lia. }
  assert (Hdocs : ∃ documents,
            mapM (λ row : gmap string string,
                    text ← row !! "text";
                    Some {| page_content := text; metadata := delete "text" row |}) df'
              = Some documents).
  { apply (mapM_is_Some_2 _ df'). apply Forall_lookup. intros i row' Hi.
    destruct (lookup_lt_is_Some_2 df i) as [row Hrow].
    { rewrite <- Hlen'. by eapply lookup_lt_Some. }
    destruct (Hdf' i row Hrow) as (text & _ & Hrow'). simplify_eq.
    cbn. rewrite lookup_insert_eq. done. }
  destruct Hdocs as [documents Hdocs].
  exists df', documents.
  split; [|split; [|split; [done|split]]].
  - unfold add_text. rewrite run_bind, Hn, run_bind, Hd, run_bind, Hm, run_bind, Hs.
    unfold setitem. rewrite run_call. done.
  - unfold load_documents. by rewrite Hdocs.
  - apply mapM_Some_1, Forall2_length in Hdocs. lia.
  - intros i row Hi.
    destruct (Htexts i row Hi) as (n & d & m & s & Hn' & Hd' & Hm' & Hs' & Ht).
    destruct (Hdf' i row Hi) as (text & Ht' & Hrow'). simplify_eq.
    apply mapM_Some_1 in Hdocs.
    destruct (Forall2_lookup_l _ _ _ _ _ Hdocs Hrow') as (doc & Hdoc & Hmk).
    exists n, d, m, s, doc. repeat (split; [done|]).
    rewrite lookup_insert_eq in Hmk. cbn in Hmk. by simplify_eq.
Qed.

(** ** The discipline of runs: rules *)

Section Rules.
Context (Q : libcall → Prop).

Lemma sound_ret {A} (a : A) : sound Q (mret a).
Proof. intros w. exists []. split; [by rewrite app_nil_r|]. constructor. Qed.

Lemma sound_raise {A} e : sound Q (raise e : Py A).
Proof. intros w. exists [Raised e]. split; [done|]. by exists []. Qed.

Lemma sound_call {A} c (r : result A) : Q c → sound Q (call c r).
Proof.
  intros Hc w. destruct r as [e|a]; cbn.
  - exists [Call c; Raised e]. split; [by rewrite <- app_assoc|].
    exists [Call c]. split; [done|]. by repeat constructor.
  - exists [Call c]. split; [done|]. by repeat constructor.
Qed.

Lemma sound_print s : sound Q (print s).
Proof. intros w. exists [Printed s]. split; [done|]. by repeat constructor. Qed.

Lemma sound_display s : sound Q (display s).
Proof. intros w. exists [Displayed s]. split; [done|]. by repeat constructor. Qed.

Lemma sound_bind {A B} (m : Py A) (k : A → Py B) :
  sound Q m → (∀ a, sound Q (k a)) → sound Q (m ≫= k).
Proof.
  intros Hm Hk w. rewrite run_bind.
  destruct (Hm w) as (new1 & Hev1 & Hd1).
  destruct (m w) as [[e|a] w1]; cbn [fst snd] in *.
  - exists new1. done.
  - destruct (Hk a w1) as (new2 & Hev2 & Hd2).
    exists (new1 ++ new2). split; [by rewrite Hev2, Hev1, app_assoc|].
    destruct (k a w1) as [[e|b] w2]; cbn [fst snd disciplined] in *.
    + destruct Hd2 as (before & -> & Hq). exists (new1 ++ before).
      split; [by rewrite app_assoc|]. by apply Forall_app.
    + by apply Forall_app.
Qed.

Lemma sound_ext {A} (m m' : Py A) :
  (∀ w, m w = m' w) → sound Q m → sound Q m'.
Proof. intros Heq Hm w. rewrite <- Heq. apply Hm. Qed.

Lemma sound_getitem `{Countable K} {V} (d : gmap K V) k : sound Q (getitem d k).
Proof. unfold getitem. destruct (d !! k); [apply sound_ret|apply sound_raise]. Qed.

Lemma sound_list_getitem {A} (l : list A) i : sound Q (list_getitem l i).
Proof. unfold list_getitem. destruct (l !! i); [apply sound_ret|apply sound_raise]. Qed.

Lemma sound_split_getitem {A} (d : DatasetDict A) name : sound Q (split_getitem d name).
Proof. unfold split_getitem. destruct (split_lookup d name); [apply sound_ret|apply sound_raise]. Qed.

Lemma sound_for_each {A} (xs : list A) body :
  (∀ x, sound Q (body x)) → sound Q (for_each xs body).
Proof.
  intros Hbody. induction xs as [|x xs IH]; [apply sound_ret|].
  apply sound_bind; [apply Hbody|intros _; apply IH].
Qed.

End Rules.

Create HintDb py.

#[export] Hint Resolve sound_ret sound_raise sound_print sound_display
  sound_getitem sound_list_getitem sound_split_getitem : py.

(** One step of a proof of [sound]: split a bind, take the branches of a
    test, or use a rule. *)
Ltac sound_step :=
  lazymatch goal with
  | |- sound _ (_ ≫= _) => apply sound_bind; [|intro]
  | |- sound _ (call _ _) => apply sound_call; try exact I; try reflexivity
  | |- sound _ (for_each _ _) => apply sound_for_each; intro
  | |- sound _ (if ?b then _ else _) => destruct b
  | |- sound _ (match ?x with _ => _ end) => destruct x
  | |- sound _ (let '(_, _) := ?x in _) => destruct x
  | |- _ => solve [eauto with py]
  end.
Ltac sound_auto := repeat sound_step.

(** ** The discipline of the fine-tuning notebook *)

(** [show_one_example_per_label] only subsets and iterates the dataset. *)
Lemma sound_show_loop (Q : libcall → Prop) subset :
  Q Dataset_next → ∀ seen, sound Q (show_loop subset seen).
Proof.
  intros Hnext.
  induction subset as [|e rest IH]; intros seen; cbn [show_loop]; sound_auto.
Qed.

Lemma sound_show (Q : libcall → Prop) dataset_split offset :
  Q Dataset_select → Q Dataset_next →
  sound Q (show_one_example_per_label dataset_split offset).
Proof.
  intros Hselect Hnext. unfold show_one_example_per_label, select.
  apply sound_bind; [by apply sound_call|intro; by apply sound_show_loop].
Qed.

Lemma sound_returned (Q : libcall → Prop) {A} (m : Py A) w a new :
  sound Q m → m w = (inr a, extend w new) → Forall (quiet Q) new.
Proof.
  intros Hm Hrun. destruct (Hm w) as (new' & Hev & Hd).
  rewrite Hrun in Hev, Hd. cbn in Hev, Hd.
  by apply app_inv_head in Hev as ->.
Qed.

Section FineTuningDiscipline.
Context {O : Opaque} (L : Lib O).
#[local] Abbreviation Q := fine_tuning_call.

Lemma sound_select {A} (rows : list A) indices : sound Q (select rows indices).
Proof. unfold select. sound_auto. Qed.

Lemma sound_show_one_example_per_label dataset_split offset :
  sound Q (show_one_example_per_label dataset_split offset).
Proof. apply sound_show; exact I. Qed.

Lemma sound_preprocess_function tokenizer examples :
  sound Q (preprocess_function L tokenizer examples).
Proof. unfold preprocess_function. sound_auto. Qed.

Lemma sound_rows_of_columns columns : sound Q (rows_of_columns columns).
Proof. unfold rows_of_columns. sound_auto. Qed.

Lemma sound_map_batches function bs :
  (∀ b, sound Q (function b)) → sound Q (map_batches function bs).
Proof.
  intros Hf. induction bs as [|b rest IH]; cbn [map_batches]; sound_auto.
  apply sound_rows_of_columns.
Qed.

Lemma sound_DatasetDict_map function dataset :
  (∀ b, sound Q (function b)) → sound Q (DatasetDict_map function dataset).
Proof.
  intros Hf. induction dataset as [|[name rows] rest IH]; cbn [DatasetDict_map]; sound_auto.
  by apply sound_map_batches.
Qed.

Lemma sound_compute_metrics eval_pred : sound Q (compute_metrics L eval_pred).
Proof. unfold compute_metrics. sound_auto. Qed.

Lemma sound_new_Trainer model args td ed cm : sound Q (new_Trainer L model args td ed cm).
Proof. unfold new_Trainer. sound_auto. Qed.

Lemma sound_Trainer_evaluate trainer model :
  sound_callback trainer → sound Q (Trainer_evaluate L trainer model).
Proof.
  intros Hcb. unfold Trainer_evaluate. 
  apply sound_bind; [sound_auto|intro].
  apply sound_bind; [sound_auto|intro].
  apply sound_bind; [|intro; sound_auto].
  destruct (trainer_compute_metrics trainer) eqn:Hf; [by apply Hcb|sound_auto].
Qed.

Lemma sound_train_loop trainer train_ds epochs : ∀ model,
  sound_callback trainer →
  output_dir (args trainer) = "./peft_multi_nli_results" →
  sound Q (train_loop L trainer train_ds model epochs).
Proof.
  intros model Hcb Hdir. revert model.
  induction epochs as [|e rest IH]; intros model; cbn [train_loop]; [sound_auto|].
  apply sound_bind; [sound_auto|intros m].
  apply sound_bind.
  { destruct (String.eqb _ _); [|sound_auto].
    apply sound_bind; [by apply sound_Trainer_evaluate|intro; sound_auto]. }
  intros _. apply sound_bind; [|intros; apply IH].
  destruct (String.eqb _ _); [|sound_auto].
  apply sound_call. exact Hdir.
Qed.

Lemma sound_Trainer_train trainer :
  sound_callback trainer →
  output_dir (args trainer) = "./peft_multi_nli_results" →
  sound Q (Trainer_train L trainer).
Proof.
  intros Hcb Hdir. unfold Trainer_train.
  apply sound_bind; [sound_auto|intro].
  apply sound_bind; [by apply sound_train_loop|intro].
  sound_auto.
Qed.

Lemma sound_new_Trainer_bind {B} model args td ed cm (k : Trainer → Py B) :
  sound Q (k {| trainer_model := model; args := args; train_dataset := td;
                eval_dataset := ed; trainer_compute_metrics := cm |}) →
  sound Q (new_Trainer L model args td ed cm ≫= k).
Proof.
  intros Hk. unfold new_Trainer.
  eapply sound_ext; [intros w; symmetry; apply run_bind_assoc|].
  apply sound_bind; [sound_auto|intros _].
  eapply sound_ext; [intros w; symmetry; apply run_bind_ret|]. exact Hk.
Qed.

Lemma sound_fine_tuning_notebook : sound Q (FineTuning.notebook L).
Proof.
  unfold FineTuning.notebook.
  apply sound_bind; [unfold FineTuning.In_2; sound_auto|intros _].
  apply sound_bind; [unfold FineTuning.In_3; sound_auto|intros _].
  apply sound_bind.
  { unfold FineTuning.In_4. sound_auto. apply sound_show_one_example_per_label. }
  intros dataset.
  apply sound_bind; [unfold FineTuning.In_5; sound_auto|intros tokenizer].
  apply sound_bind.
  { unfold FineTuning.In_6.
    apply sound_bind; [|intro; sound_auto].
    apply sound_DatasetDict_map. intros. apply sound_preprocess_function. }
  intros tokenized.
  apply sound_bind.
  { unfold FineTuning.In_7. sound_auto; apply sound_select. }
  intros subsets.
  apply sound_bind; [unfold FineTuning.In_8; sound_auto|intros base_model].
  apply sound_bind.
  { unfold FineTuning.In_10. apply sound_new_Trainer_bind.
    apply sound_bind; [sound_auto|intros _].
    apply sound_bind; [|intro; sound_auto].
    apply sound_Trainer_evaluate.
    intros f x [= <-]. apply sound_compute_metrics. }
  intros _.
  apply sound_bind; [unfold FineTuning.In_11; sound_auto|intros _].
  apply sound_bind; [unfold FineTuning.In_14; sound_auto|intros peft_model].
  apply sound_bind.
  { unfold FineTuning.In_16. apply sound_new_Trainer_bind.
    apply sound_bind; [|intro; sound_auto].
    apply sound_Trainer_train; [|done].
    intros f x [= <-]. apply sound_compute_metrics. }
  intros peft_model'. unfold FineTuning.In_17. sound_auto.
Qed.

End FineTuningDiscipline.

(** ** The discipline of the chatbot notebook *)

Section ChatbotDiscipline.
Context {O : Opaque} (L : Lib O).
#[local] Abbreviation Q := chatbot_call.

Lemma sound_column df name : sound Q (column df name).
Proof. unfold column. sound_auto. Qed.

Lemma sound_add_text df : sound Q (add_text df).
Proof. unfold add_text, setitem. sound_auto; apply sound_column. Qed.

Lemma sound_FAISS_from_documents documents embeddings :
  sound Q (FAISS_from_documents L documents embeddings).
Proof. unfold FAISS_from_documents. sound_auto. Qed.

Lemma sound_chatbot_without_customization question :
  sound Q (chatbot_without_customization L question).
Proof. unfold chatbot_without_customization. sound_auto. Qed.

Lemma sound_invoke_chain qa_chain question chat_history :
  sound Q (invoke_chain L qa_chain question chat_history).
Proof.
  intros w. unfold invoke_chain. cbv zeta.
  destruct chat_history as [h|];
    match goal with |- context [invoke L ?c ?q ?h] =>
      destruct (invoke L c q h) as [[e|answer] h'] end; cbn [fst snd].
  all: first
    [ eexists [_; Raised _]; split; [cbn; by rewrite <- app_assoc|];
      eexists [_]; split; [done|]; by repeat constructor
    | eexists [_]; split; [reflexivity|]; by repeat constructor ].
Qed.

Lemma sound_chatbot_with_langchain chat_model retriever question chat_history :
  sound Q (chatbot_with_langchain L chat_model retriever question chat_history).
Proof.
  unfold chatbot_with_langchain. sound_auto. apply sound_invoke_chain.
Qed.

Lemma sound_def_chatbot_with_langchain : sound Q def_chatbot_with_langchain.
Proof. intros w. exists []. split; [cbn; by rewrite app_nil_r|]. constructor. Qed.

Lemma sound_chatbot_notebook : sound Q (Chatbot.notebook L).
Proof.
  unfold Chatbot.notebook.
  apply sound_bind; [unfold Chatbot.In_2; sound_auto|intros _].
  apply sound_bind; [unfold Chatbot.In_3; sound_auto|intros _].
  apply sound_bind; [unfold Chatbot.In_4; sound_auto; apply sound_add_text|intros df].
  apply sound_bind; [unfold Chatbot.In_5; sound_auto|intros _].
  apply sound_bind; [unfold Chatbot.In_6; sound_auto|intros _].
  apply sound_bind.
  { unfold Chatbot.In_8. sound_auto.
    - apply sound_FAISS_from_documents.
    - apply sound_def_chatbot_with_langchain. }
  intros globals. unfold Chatbot.In_9. sound_auto.
  - apply sound_chatbot_without_customization.
  - apply sound_chatbot_with_langchain.
Qed.

End ChatbotDiscipline.

(** ** Runs of the fine-tuning notebook in which no call fails *)

Import FineTuningSteps.

Lemma steps_app a b : steps (a ++ b) = steps a ++ steps b.
Proof. apply omap_app. Qed.

Lemma saved_app (a b : list event) :
  omap saved_to (a ++ b) = omap saved_to a ++ omap saved_to b.
Proof. apply omap_app. Qed.

Lemma steps_tokenizer_calls n :
  steps (replicate n (Call tokenizer_call)) = replicate n Tokenization.
Proof. induction n as [|n IH]; [done|]. cbn. by f_equal. Qed.

Lemma saved_tokenizer_calls n :
  omap saved_to (replicate n (Call tokenizer_call)) = [].
Proof. induction n as [|n IH]; [done|]. exact IH. Qed.

Lemma concat_batches_fuel {A} fuel n (rows : list A) :
  (1 ≤ n)%nat → (length rows ≤ fuel)%nat →
  concat (batches_fuel fuel n rows) = rows.
Proof.
  intros Hn. revert rows. induction fuel as [|fuel IH]; intros rows Hlen.
  - destruct rows; [done|simpl in Hlen; lia].
  - destruct rows as [|x rows]; [done|].
    cbn [batches_fuel concat]. rewrite IH; [apply take_drop|].
    rewrite length_drop. simpl in *. lia.
Qed.

Lemma concat_batches {A} n (rows : list A) :
  (1 ≤ n)%nat → concat (batches n rows) = rows.
Proof. intros Hn. by apply concat_batches_fuel. Qed.

Lemma batches_nonempty {A} n (rows : list A) :
  rows ≠ [] → (1 ≤ length (batches n rows))%nat.
Proof. destruct rows; [done|]. intros _. cbn. lia. Qed.

Section TrainerRuns.
Context {O : Opaque} (L : Lib O) (HL : fine_tuning_succeeds L).

Lemma run_preprocess_function tokenizer examples w :
  ∃ encodings,
    preprocess_function L tokenizer examples w
      = (inr (encodings, label <$> examples), extend w [Call tokenizer_call]) ∧
    length encodings = length examples.
Proof.
  destruct (ok_tokenize L HL tokenizer (premise <$> examples) (hypothesis <$> examples)
              "max_length" true) as (encodings & Henc & Hlen).
  exists encodings. unfold preprocess_function.
  rewrite Henc, run_bind_call, run_ret. split; [done|].
  by rewrite Hlen, length_fmap.
Qed.

Lemma run_map_batches tokenizer bs : ∀ w,
  ∃ rows,
    map_batches (preprocess_function L tokenizer) bs w
      = (inr rows, extend w (replicate (length bs) (Call tokenizer_call))) ∧
    length rows = length (concat bs).
Proof.
  induction bs as [|b rest IH]; intros w.
  { exists []. cbn. by rewrite extend_nil. }
  destruct (run_preprocess_function tokenizer b w) as (encodings & Hrun & Hlen).
  destruct (IH (extend w [Call tokenizer_call])) as (more & Hmore & Hlen').
  exists (zip_with Features encodings (label <$> b) ++ more).
  cbn [map_batches]. rewrite run_bind, Hrun.
  unfold rows_of_columns. cbn [fst snd].
  rewrite bool_decide_eq_true_2 by (by rewrite Hlen, length_fmap).
  rewrite run_bind_ret, run_bind, Hmore, run_ret, extend_extend.
  split; [done|].
  cbn [concat]. rewrite !length_app, length_zip_with, length_fmap, Hlen'. lia.
Qed.

Lemma run_DatasetDict_map tokenizer dataset : ∀ w,
  ∃ tokenized new k,
    DatasetDict_map (preprocess_function L tokenizer) dataset w
      = (inr tokenized, extend w new) ∧
    steps new = replicate k Tokenization ∧
    omap saved_to new = [] ∧
    ∀ name rows, split_lookup dataset name = Some rows →
      ∃ rows', split_lookup tokenized name = Some rows' ∧
               length rows' = length rows ∧
               (rows ≠ [] → (1 ≤ k)%nat).
Proof.
  induction dataset as [|[name rows] rest IH]; intros w.
  { exists [], [], 0%nat. cbn. rewrite extend_nil. by repeat split. }
  destruct (run_map_batches tokenizer (batches 1000 rows)
              (extend w [Call (Dataset_map name)])) as (rows' & Hrows & Hlen).
  rewrite concat_batches in Hlen by lia.
  destruct (IH (extend (extend w [Call (Dataset_map name)])
                  (replicate (length (batches 1000 rows)) (Call tokenizer_call))))
    as (rest' & new & k & Hrest & Hsteps & Hsaved & Hlookup).
  exists ((name, rows') :: rest'),
         (([Call (Dataset_map name)]
           ++ replicate (length (batches 1000 rows)) (Call tokenizer_call)) ++ new),
         (length (batches 1000 rows) + k)%nat.
  cbn [DatasetDict_map]. rewrite run_bind_call, log_as_extend, run_bind, Hrows.
  rewrite run_bind, Hrest, run_ret, !extend_extend.
  split; [done|]. split; [|split].
  - rewrite !steps_app, steps_tokenizer_calls, Hsteps, replicate_add. done.
  - rewrite !saved_app, saved_tokenizer_calls, Hsaved. done.
  - intros name' rows0. cbn [split_lookup].
    destruct (String.eqb name name').
    + intros [= <-]. exists rows'. split; [done|]. split; [done|].
      intros Hne. pose proof (batches_nonempty 1000 rows Hne). lia.
    + intros Hl. destruct (Hlookup _ _ Hl) as (r' & ? & ? & Hk).
      exists r'. split; [done|]. split; [done|]. intros Hne. specialize (Hk Hne). lia.
Qed.

Lemma run_compute_metrics predictions labels w :
  Forall (λ row, row ≠ []) predictions →
  ∃ metrics,
    compute_metrics L (predictions, labels) w
      = (inr metrics,
         extend w [Call torch_argmax; Call sk_f1_score;
                   Call sk_precision_score; Call sk_recall_score]).
Proof.
  intros Hrows.
  destruct (argmax_last_dim_spec predictions Hrows) as (preds & Hpreds & _).
  destruct (ok_f1 L HL labels preds "macro") as [f1 Hf1].
  destruct (ok_precision L HL labels preds "macro") as [p Hp].
  destruct (ok_recall L HL labels preds "macro") as [r Hr].
  eexists. unfold compute_metrics.
  rewrite Hpreds, run_bind_call, Hf1, run_bind_call.
  rewrite Hp, run_bind_call, Hr, run_bind_call, run_ret. world. reflexivity.
Qed.

Lemma run_Trainer_evaluate model0 targs td ed model w :
  ∃ metrics,
    Trainer_evaluate L
      {| trainer_model := model0; args := targs; train_dataset := td;
         eval_dataset := Some ed;
         trainer_compute_metrics := Some (compute_metrics L) |} model w
      = (inr metrics, extend w evaluation_events).
Proof.
  destruct (ok_prediction L HL model ed (per_device_eval_batch_size targs))
    as (logits & loss & Hp & Hrows).
  destruct (run_compute_metrics logits (labels <$> ed)
              (log (Call Trainer_prediction_loop) w) Hrows) as (metrics & Hm).
  eexists.
  unfold Trainer_evaluate. cbn [eval_dataset trainer_compute_metrics args].
  rewrite run_bind_ret, Hp, run_bind_call. cbn [fst snd].
  rewrite run_bind, Hm, run_ret, log_as_extend, extend_extend.
  reflexivity.
Qed.

Lemma run_train_loop model0 td ed train_ds epochs : ∀ model w,
  ∃ model',
    train_loop L
      {| trainer_model := model0; args := FineTuning.training_args;
         train_dataset := td; eval_dataset := Some ed;
         trainer_compute_metrics := Some (compute_metrics L) |}
      train_ds model epochs w
      = (inr model',
         extend w (epochs ≫= epoch_events "./peft_multi_nli_results")).
Proof.
  induction epochs as [|e rest IH]; intros model w.
  { exists model. cbn. by rewrite extend_nil. }
  destruct (ok_epoch L HL model train_ds FineTuning.training_args e) as [model1 Hm].
  destruct (run_Trainer_evaluate model0 FineTuning.training_args td ed model1
              (log (Call (Trainer_training_epoch e)) w)) as (metrics & He).
  destruct (IH model1 (log (Call (Trainer_save_checkpoint "./peft_multi_nli_results" e))
                        (extend (log (Call (Trainer_training_epoch e)) w) evaluation_events)))
    as (model' & Hrest).
  exists model'.
  cbn [train_loop args]. rewrite Hm, run_bind_call.
  change (String.eqb (evaluation_strategy FineTuning.training_args) "epoch") with true.
  change (String.eqb (save_strategy FineTuning.training_args) "epoch") with true.
  cbv iota.
  rewrite (run_bind_assoc (Trainer_evaluate L _ model1)), run_bind, He, run_bind_ret.
  change (output_dir FineTuning.training_args) with "./peft_multi_nli_results".
  rewrite (ok_checkpoint L HL), run_bind_call, Hrest.
  rewrite !log_as_extend, !extend_extend. reflexivity.
Qed.

Lemma run_Trainer_train model0 td ed w :
  ∃ model',
    Trainer_train L
      {| trainer_model := model0; args := FineTuning.training_args;
         train_dataset := Some td; eval_dataset := Some ed;
         trainer_compute_metrics := Some (compute_metrics L) |} w
      = (inr model',
         extend w ((seq 1 12 ≫= epoch_events "./peft_multi_nli_results")
                   ++ [Call (Trainer_load_best_model "./peft_multi_nli_results")])).
Proof.
  destruct (run_train_loop model0 (Some td) ed td (seq 1 12) model0 w) as (model1 & Hloop).
  destruct (ok_load_best L HL model1 "./peft_multi_nli_results") as [model2 Hbest].
  exists model2.
  unfold Trainer_train. cbn [train_dataset args trainer_model].
  rewrite run_bind_ret.
  change (num_train_epochs FineTuning.training_args) with 12%nat.
  rewrite run_bind, Hloop.
  change (load_best_model_at_end FineTuning.training_args) with true. cbv iota.
  change (output_dir FineTuning.training_args) with "./peft_multi_nli_results".
  rewrite Hbest, run_call, log_as_extend, extend_extend. done.
Qed.

End TrainerRuns.
Lemma steps_quiet_show new :
  Forall (quiet (λ c, c = Dataset_select ∨ c = Dataset_next)) new →
  steps new = [] ∧ omap saved_to new = [].
Proof.
  induction 1 as [|e new He _ [IH1 IH2]]; [done|].
  destruct e as [| |c|]; cbn in *; try done.
  by destruct He as [-> | ->].
Qed.

Lemma run_show_one_example_per_label dataset_split offset w :
  ∃ new, show_one_example_per_label dataset_split offset w = (inr tt, extend w new) ∧
         steps new = [] ∧ omap saved_to new = [].
Proof.
  destruct (show_loop_spec (drop offset dataset_split) ∅
              (extend w [Call Dataset_select]))
    as (picks & new & Hloop & _).
  { apply empty_subseteq. }
  { rewrite size_empty. lia. }
  assert (Hrun : show_one_example_per_label dataset_split offset w
                 = (inr tt, extend w ([Call Dataset_select] ++ new))).
  { unfold show_one_example_per_label, select.
    by rewrite select_from_offset, run_bind_call, log_as_extend, Hloop, extend_extend. }
  eexists. split; [exact Hrun|]. apply steps_quiet_show.
  eapply sound_returned; [|exact Hrun]. apply sound_show; auto.
Qed.

Lemma train_size_positive : (0 < 50000)%nat.
Proof. apply Nat.ltb_lt. vm_compute. reflexivity. Qed.

Section FineTuningCells.
Context {O : Opaque} (L : Lib O) (HL : fine_tuning_succeeds L).

Lemma run_In_2 w :
  FineTuning.In_2 w
  = (inr tt, extend w [Call torch_cuda_is_available; Displayed "torch.cuda.is_available()"]).
Proof. unfold FineTuning.In_2. rewrite run_bind_call. unfold display. by world. Qed.

Lemma run_In_3 w :
  ∃ dataset new,
    FineTuning.In_3 L w = (inr dataset, extend w (Call (load_dataset "multi_nli") :: new)) ∧
    steps new = [] ∧ omap saved_to new = [].
Proof.
  destruct (ok_load_dataset L HL)
    as (dataset & train & matched & mismatched & Hload & Ht & Hm & Hmm & _).
  exists dataset. eexists. unfold FineTuning.In_3.
  rewrite Hload, run_bind_call.
  rewrite run_bind, (run_split_getitem _ _ _ _ Ht), run_bind_print.
  rewrite run_bind, (run_split_getitem _ _ _ _ Hm), run_bind_print.
  rewrite run_bind, (run_split_getitem _ _ _ _ Hmm), run_bind_print, run_ret.
  world. split; [reflexivity|]. done.
Qed.

Lemma run_In_4 w :
  ∃ dataset train matched new,
    FineTuning.In_4 L w = (inr dataset, extend w (Call (load_dataset "multi_nli") :: new)) ∧
    steps new = [] ∧ omap saved_to new = [] ∧
    split_lookup dataset "train" = Some train ∧
    split_lookup dataset "validation_matched" = Some matched ∧
    (50000 ≤ length train)%nat ∧ (4000 ≤ length matched)%nat.
Proof.
  destruct (ok_load_dataset L HL)
    as (dataset & train & matched & mismatched & Hload & Ht & Hm & Hmm & Hnt & Hnm).
  destruct (run_show_one_example_per_label train 550
              (log (Call (load_dataset "multi_nli")) w)) as (new & Hshow & Hs & Hsv).
  exists dataset, train, matched, new. unfold FineTuning.In_4.
  rewrite Hload, run_bind_call.
  rewrite run_bind, (run_split_getitem _ _ _ _ Ht).
  rewrite run_bind, Hshow, run_ret. world. done.
Qed.

Lemma run_In_6 dataset tokenizer train matched w :
  split_lookup dataset "train" = Some train →
  split_lookup dataset "validation_matched" = Some matched →
  (50000 ≤ length train)%nat → (4000 ≤ length matched)%nat →
  ∃ tokenized train' matched' new k,
    FineTuning.In_6 L dataset tokenizer w = (inr tokenized, extend w new) ∧
    steps new = replicate k Tokenization ∧ (1 ≤ k)%nat ∧ omap saved_to new = [] ∧
    split_lookup tokenized "train" = Some train' ∧
    split_lookup tokenized "validation_matched" = Some matched' ∧
    (50000 ≤ length train')%nat ∧ (4000 ≤ length matched')%nat.
Proof.
  intros Ht Hm Hnt Hnm.
  destruct (run_DatasetDict_map L HL tokenizer dataset w)
    as (tokenized & new & k & Hmap & Hsteps & Hsaved & Hlookup).
  destruct (Hlookup _ _ Ht) as (train' & Ht' & Hlt & Hk).
  destruct (Hlookup _ _ Hm) as (matched' & Hm' & Hlm & _).
  pose proof train_size_positive as Hpos.
  destruct (lookup_lt_is_Some_2 train' 0) as [row Hrow]; [lia|].
  exists tokenized, train', matched'. eexists. exists k.
  unfold FineTuning.In_6. rewrite run_bind, Hmap.
  rewrite run_bind, (run_split_getitem _ _ _ _ Ht').
  unfold list_getitem. rewrite Hrow, run_bind_ret, run_bind_display, run_ret. world.
  split; [reflexivity|].
  rewrite steps_app, saved_app, Hsteps, Hsaved, app_nil_r.
  split; [done|]. split.
  { apply Hk. intros ->. cbn [length] in Hnt. lia. }
  split; [done|]. split; [done|]. split; [done|]. split; lia.
Qed.

Lemma run_In_5 w :
  ∃ tokenizer,
    FineTuning.In_5 L w
    = (inr tokenizer,
       extend w [Call (AutoTokenizer_from_pretrained "distilbert-base-uncased")]).
Proof.
  destruct (ok_tokenizer L HL FineTuning.model_name) as [t Ht].
  exists t. unfold FineTuning.In_5. by rewrite Ht, run_call.
Qed.

Lemma run_In_7 tokenized train matched w :
  split_lookup tokenized "train" = Some train →
  split_lookup tokenized "validation_matched" = Some matched →
  (50000 ≤ length train)%nat → (4000 ≤ length matched)%nat →
  ∃ new,
    FineTuning.In_7 tokenized w
      = (inr (take 50000 train, take 4000 matched), extend w new) ∧
    steps new = [] ∧ omap saved_to new = [].
Proof.
  intros Ht Hm Hnt Hnm. eexists. split; [|split].
  - unfold FineTuning.In_7, select.
    rewrite run_bind, (run_split_getitem _ _ _ _ Ht).
    rewrite (select_first _ _ Hnt), run_bind_call.
    rewrite run_bind, (run_split_getitem _ _ _ _ Hm).
    rewrite (select_first _ _ Hnm), run_bind_call.
    rewrite !run_bind_print, run_ret. world. reflexivity.
  - reflexivity.
  - reflexivity.
Qed.

Lemma run_In_8 w :
  ∃ base_model,
    FineTuning.In_8 L w
    = (inr base_model,
       extend w [Call (AutoModelForSequenceClassification_from_pretrained
                         "distilbert-base-uncased" 3);
                 Call torch_cuda_is_available;
                 Call (Module_to (FineTuning.device L));
                 Displayed "base_model"]).
Proof.
  destruct (ok_model L HL FineTuning.model_name 3) as [m Hm].
  destruct (ok_model_to L HL m (FineTuning.device L)) as [m' Hm'].
  exists m'. unfold FineTuning.In_8.
  rewrite Hm, run_bind_call, run_bind_call, Hm', run_bind_call, run_bind_display, run_ret.
  by world.
Qed.

Lemma run_new_Trainer model targs td ed cm w :
  new_Trainer L model targs td ed cm w
  = (inr {| trainer_model := model; args := targs; train_dataset := td;
            eval_dataset := ed; trainer_compute_metrics := cm |},
     extend w [Call (Trainer_init (output_dir targs))]).
Proof. unfold new_Trainer. by rewrite (ok_trainer L HL), run_bind_call, run_ret. Qed.

Lemma run_In_10 base_model ed w :
  ∃ trainer_base,
    FineTuning.In_10 L base_model ed w
    = (inr trainer_base,
       extend w ([Call (Trainer_init "./base_model_eval");
                  Printed "Evaluating pretrained base model..."]
                 ++ evaluation_events ++ [Displayed "results_base"])).
Proof.
  destruct (run_Trainer_evaluate L HL base_model FineTuning.training_args_base
              None ed base_model
              (log (Printed "Evaluating pretrained base model...")
                 (extend w [Call (Trainer_init "./base_model_eval")])))
    as (metrics & He).
  eexists. unfold FineTuning.In_10.
  rewrite run_bind, run_new_Trainer, run_bind_print.
  change (output_dir FineTuning.training_args_base) with "./base_model_eval".
  cbn [trainer_model]. rewrite run_bind, He, run_bind_display, run_ret. by world.
Qed.

Lemma run_In_14 base_model w :
  ∃ peft_model,
    FineTuning.In_14 L base_model w
    = (inr peft_model,
       extend w [Call get_peft_model; Call torch_cuda_is_available;
                 Call (Module_to (FineTuning.device L));
                 Call print_trainable_parameters]).
Proof.
  destruct (ok_get_peft_model L HL base_model FineTuning.peft_config) as [pm Hpm].
  destruct (ok_model_to L HL base_model (FineTuning.device L)) as [m' Hm'].
  exists pm. unfold FineTuning.In_14. cbv zeta.
  rewrite Hpm, run_bind_call, run_bind_call, Hm', run_bind_call.
  rewrite (ok_print_trainable L HL), run_bind_call, run_ret. by world.
Qed.

Lemma run_In_16 peft_model td ed w :
  ∃ peft_model',
    FineTuning.In_16 L peft_model td ed w
    = (inr peft_model',
       extend w (Call (Trainer_init "./peft_multi_nli_results")
                 :: (seq 1 12 ≫= epoch_events "./peft_multi_nli_results")
                 ++ [Call (Trainer_load_best_model "./peft_multi_nli_results");
                     Displayed "trainer.train()"])).
Proof.
  destruct (run_Trainer_train L HL peft_model td ed
              (extend w [Call (Trainer_init "./peft_multi_nli_results")]))
    as (pm & Ht).
  exists pm. unfold FineTuning.In_16.
  rewrite run_bind, run_new_Trainer.
  change (output_dir FineTuning.training_args) with "./peft_multi_nli_results".
  rewrite run_bind, Ht, run_bind_display, run_ret.
  world. do 2 f_equal.
Qed.

Lemma run_In_17 peft_model w :
  FineTuning.In_17 L peft_model w
  = (inr tt, extend w [Call (PeftModel_save_pretrained "./peft_multi_nli");
                       Printed "PEFT adapters saved to ./peft_multi_nli"]).
Proof.
  unfold FineTuning.In_17.
  rewrite (ok_save_pretrained L HL), run_bind_call, run_print. by world.
Qed.

End FineTuningCells.
Lemma returns_intro {A} (m : Py A) w a new (P : A → list event → Prop) :
  m w = (inr a, extend w new) → P a new → returns m w P.
Proof. intros Hrun HP. by exists a, new. Qed.

Lemma returns_bind {A B} (m : Py A) (k : A → Py B) w (P : B → list event → Prop) :
  returns m w (λ a new1,
    returns (k a) (extend w new1) (λ b new2, P b (new1 ++ new2))) →
  returns (m ≫= k) w P.
Proof.
  intros (a & new1 & Hm & b & new2 & Hk & HP).
  exists b, (new1 ++ new2). rewrite run_bind, Hm, Hk, extend_extend. done.
Qed.

Lemma steps_epochs dir epochs :
  steps (epochs ≫= epoch_events dir) = epochs ≫= (λ _, fine_tuning_epoch_steps).
Proof.
  induction epochs as [|e rest IH]; [done|].
  cbn [mbind list_bind]. change (list_bind ?f ?l) with (l ≫= f).
  rewrite steps_app, IH. done.
Qed.

Lemma saved_epochs dir epochs :
  omap saved_to (epochs ≫= epoch_events dir) = replicate (length epochs) dir.
Proof.
  induction epochs as [|e rest IH]; [done|].
  cbn [mbind list_bind]. change (list_bind ?f ?l) with (l ≫= f).
  rewrite saved_app, IH. done.
Qed.

Section FineTuningRun.
Context {O : Opaque} (L : Lib O) (HL : fine_tuning_succeeds L).

Lemma fine_tuning_run w :
  ∃ new k,
    FineTuning.notebook L w = (inr tt, extend w new) ∧
    (1 ≤ k)%nat ∧
    steps new
      = [DataLoading; DataLoading] ++ replicate k Tokenization
        ++ [ModelLoading] ++ replicate 4 MetricComputation
        ++ [AdapterInjection]
        ++ (seq 1 12 ≫= λ _, fine_tuning_epoch_steps)
        ++ [CheckpointSave] ∧
    omap saved_to new
      = replicate 12 "./peft_multi_nli_results" ++ ["./peft_multi_nli"].
Proof.
  cut (returns (FineTuning.notebook L) w (λ _ new,
         ∃ k, (1 ≤ k)%nat ∧
           steps new
           = [DataLoading; DataLoading] ++ replicate k Tokenization
             ++ [ModelLoading] ++ replicate 4 MetricComputation
             ++ [AdapterInjection]
             ++ (seq 1 12 ≫= λ _, fine_tuning_epoch_steps)
             ++ [CheckpointSave] ∧
           omap saved_to new
           = replicate 12 "./peft_multi_nli_results" ++ ["./peft_multi_nli"])).
  { intros ([] & new & Hrun & k & Hk & Hsteps & Hsaved). by exists new, k. }
  unfold FineTuning.notebook.
  apply returns_bind.
  eapply returns_intro; [apply run_In_2|].
  apply returns_bind.
  match goal with |- returns _ ?w' _ =>
    destruct (run_In_3 L HL w') as (dataset0 & new3 & H3 & Hs3 & Hv3) end.
  eapply returns_intro; [exact H3|].
  apply returns_bind.
  match goal with |- returns _ ?w' _ =>
    destruct (run_In_4 L HL w')
      as (dataset & train & matched & new4 & H4 & Hs4 & Hv4 & Ht & Hm & Hnt & Hnm) end.
  eapply returns_intro; [exact H4|].
  apply returns_bind.
  match goal with |- returns _ ?w' _ =>
    destruct (run_In_5 L HL w') as (tokenizer & H5) end.
  eapply returns_intro; [exact H5|].
  apply returns_bind.
  match goal with |- returns _ ?w' _ =>
    destruct (run_In_6 L HL dataset tokenizer train matched w' Ht Hm Hnt Hnm)
      as (tokenized & train' & matched' & new6 & k & H6 & Hs6 & Hk & Hv6 & Ht' & Hm' & Hnt' & Hnm')
  end.
  eapply returns_intro; [exact H6|].
  apply returns_bind.
  match goal with |- returns _ ?w' _ =>
    destruct (run_In_7 tokenized train' matched' w' Ht' Hm' Hnt' Hnm')
      as (new7 & H7 & Hs7 & Hv7) end.
  eapply returns_intro; [exact H7|].
  apply returns_bind.
  match goal with |- returns _ ?w' _ =>
    destruct (run_In_8 L HL w') as (base_model & H8) end.
  eapply returns_intro; [exact H8|].
  apply returns_bind. cbn [fst snd].
  match goal with |- returns (FineTuning.In_10 L _ ?ed) ?w' _ =>
    destruct (run_In_10 L HL base_model ed w') as (trainer_base & H10) end.
  eapply returns_intro; [exact H10|].
  apply returns_bind.
  eapply returns_intro; [reflexivity|].
  apply returns_bind.
  match goal with |- returns _ ?w' _ =>
    destruct (run_In_14 L HL base_model w') as (peft_model & H14) end.
  eapply returns_intro; [exact H14|].
  apply returns_bind.
  match goal with |- returns (FineTuning.In_16 L _ ?td ?ed) ?w' _ =>
    destruct (run_In_16 L HL peft_model td ed w') as (peft_model' & H16) end.
  eapply returns_intro; [exact H16|].
  eapply returns_intro; [apply run_In_17; exact HL|].
  exists k. split; [exact Hk|].
  repeat rewrite ?steps_app, ?saved_app.
  change (Call (load_dataset "multi_nli") :: new3)
    with ([Call (load_dataset "multi_nli")] ++ new3).
  change (Call (load_dataset "multi_nli") :: new4)
    with ([Call (load_dataset "multi_nli")] ++ new4).
  change (Call (Trainer_init "./peft_multi_nli_results")
          :: (seq 1 12 ≫= epoch_events "./peft_multi_nli_results")
             ++ [Call (Trainer_load_best_model "./peft_multi_nli_results");
                 Displayed "trainer.train()"])
    with ([Call (Trainer_init "./peft_multi_nli_results")]
          ++ (seq 1 12 ≫= epoch_events "./peft_multi_nli_results")
             ++ [Call (Trainer_load_best_model "./peft_multi_nli_results");
                 Displayed "trainer.train()"]).
  repeat rewrite ?steps_app, ?saved_app.
  rewrite Hs3, Hv3, Hs4, Hv4, Hs6, Hv6, Hs7, Hv7, steps_epochs, saved_epochs.
  split; reflexivity.
Qed.

End FineTuningRun.

(** ** Runs of the chatbot notebook in which no call fails *)

Lemma finishes_bind {A B} (m : Py A) (k : A → Py B) w a w1 new1
    (P : B → list event → Prop) :
  m w = (inr a, w1) → events w1 = events w ++ new1 →
  finishes (k a) w1 (λ b new2, P b (new1 ++ new2)) →
  finishes (m ≫= k) w P.
Proof.
  intros Hm Hev (b & w2 & new2 & Hk & Hev2 & HP).
  exists b, w2, (new1 ++ new2). rewrite run_bind, Hm, Hk.
  split; [done|]. split; [|done]. by rewrite Hev2, Hev, app_assoc.
Qed.

Lemma finishes_intro {A} (m : Py A) w a w' new (P : A → list event → Prop) :
  m w = (inr a, w') → events w' = events w ++ new → P a new → finishes m w P.
Proof. intros. by exists a, w', new. Qed.

Section ChatbotRuns.
Context {O : Opaque} (L : Lib O) (HL : chatbot_succeeds L).
Import ChatbotSteps.

Lemma run_chatbot_without_customization question w :
  ∃ answer,
    chatbot_without_customization L question w
    = (inr answer,
       extend w [Call OpenAI_init;
                 Call (chat_completions_create "gpt-3.5-turbo" question 150)]).
Proof.
  destruct (ok_client L HL (openai_api_key L) openai_api_base) as [client Hc].
  destruct (ok_completion L HL client "gpt-3.5-turbo" [("user", question)] 150)
    as (text & rest & Hr).
  exists (strip L text). unfold chatbot_without_customization.
  rewrite Hc, run_bind_call, Hr, run_bind_call.
  cbn [choices list_getitem lookup list_lookup]. rewrite run_bind_ret.
  cbn [message content]. rewrite run_ret. by world.
Qed.

Lemma run_chatbot_with_langchain chat_model retriever question w :
  ∃ answer w',
    chatbot_with_langchain L chat_model retriever question None w = (inr answer, w') ∧
    events w'
    = events w ++ [Call ConversationalRetrievalChain_from_llm;
                   Call (chain_invoke question (chat_history_default w))].
Proof.
  destruct (ok_from_llm L HL chat_model retriever) as [chain Hc].
  destruct (ok_invoke L HL chain question (chat_history_default w))
    as (res & answer & Hres & Hanswer).
  exists answer. eexists. unfold chatbot_with_langchain.
  rewrite Hc, run_bind_call, run_bind. unfold invoke_chain.
  cbn [chat_history_default log]. rewrite Hres.
  unfold getitem. rewrite Hanswer, run_ret.
  split; [reflexivity|]. cbn. by rewrite <- app_assoc.
Qed.

Lemma chat_steps_app a b : steps (a ++ b) = steps a ++ steps b.
Proof. apply omap_app. Qed.

Lemma run_In_9 chat_model retriever w :
  finishes (Chatbot.In_9 L chat_model retriever) w
    (λ _ new, steps new = Chatbot.questions ≫= λ _, question_steps).
Proof.
  unfold Chatbot.In_9. generalize Chatbot.questions as qs. intros qs. revert w.
  induction qs as [|q rest IH]; intros w.
  { eapply finishes_intro; [reflexivity|by rewrite app_nil_r|done]. }
  cbn [for_each].
  destruct (run_chatbot_without_customization q
              (log (Printed "Answer WITHOUT customization:")
                 (log (Printed ("Question: " +:+ q +:+ nl)) w))) as (a1 & H1).
  destruct (run_chatbot_with_langchain chat_model retriever q
              (log (Printed "Answer WITH LangChain RAG customization:")
                 (log (Printed "---")
                    (log (Printed a1)
                       (extend
                          (log (Printed "Answer WITHOUT customization:")
                             (log (Printed ("Question: " +:+ q +:+ nl)) w))
                          [Call OpenAI_init;
                           Call (chat_completions_create "gpt-3.5-turbo" q 150)])))))
    as (a2 & w2 & H2 & Hev2).
  eapply (finishes_bind _ _ w tt
            (log (Printed (string_mul "=" 80 +:+ nl)) (log (Printed a2) w2))).
  - cbv beta. rewrite !run_bind_print, run_bind, H1.
    rewrite !run_bind_print, run_bind, H2, run_bind_print, run_print. reflexivity.
  - cbn [events log]. rewrite Hev2. cbn [events log extend].
    rewrite <- !app_assoc. reflexivity.
  - destruct (IH (log (Printed (string_mul "=" 80 +:+ nl)) (log (Printed a2) w2)))
      as ([] & w3 & new3 & H3 & Hev3 & Hs3).
    eapply finishes_intro; [exact H3|exact Hev3|].
    rewrite chat_steps_app, Hs3. reflexivity.
Qed.

Lemma run_chat_In_4 w :
  ∃ df' documents,
    Chatbot.In_4 L w
    = (inr df', extend w [Call (pd_read_csv "data/character_descriptions.csv");
                          Call (DataFrame_setitem "text")]) ∧
    load_documents df' "text" = inr documents.
Proof.
  destruct (ok_read_csv L HL) as (df & Hread & Hcols).
  destruct (add_text_run df
              (log (Call (pd_read_csv "data/character_descriptions.csv")) w) Hcols)
    as (df' & documents & Hadd & Hdocs & _).
  exists df', documents. unfold Chatbot.In_4.
  rewrite Hread, run_bind_call, Hadd. by world.
Qed.

Lemma run_chat_In_8 df documents w :
  load_documents df "text" = inr documents →
  ∃ globals w',
    Chatbot.In_8 L df w = (inr globals, w') ∧
    events w'
    = events w ++ [Call (DataFrameLoader_load "text"); Call OpenAIEmbeddings_init;
                   Call (embed_documents (page_content <$> documents));
                   Call FAISS_index; Call (ChatOpenAI_init "gpt-3.5-turbo");
                   Call as_retriever; Call ConversationalRetrievalChain_from_llm].
Proof.
  intros Hdocs.
  destruct (ok_embeddings L HL (openai_api_key L) openai_api_base) as [emb Hemb].
  destruct (ok_embed L HL emb (page_content <$> documents)) as [vectors Hvec].
  destruct (ok_faiss L HL documents vectors) as [store Hstore].
  destruct (ok_chat_model L HL "gpt-3.5-turbo" (openai_api_key L) openai_api_base)
    as [cm Hcm].
  destruct (ok_retriever L HL store) as [rt Hrt].
  destruct (ok_from_llm L HL cm rt) as [chain Hchain].
  exists (cm, rt). eexists. unfold Chatbot.In_8, FAISS_from_documents.
  rewrite Hdocs, run_bind_call, Hemb, run_bind_call.
  rewrite (run_bind_assoc (call _ (embed L emb _))), Hvec, run_bind_call.
  rewrite Hstore, run_bind_call, Hcm, run_bind_call, Hrt, run_bind_call.
  rewrite Hchain, run_bind_call, run_bind. unfold def_chatbot_with_langchain.
  rewrite run_ret. split; [reflexivity|].
  cbn [events log]. rewrite <- !app_assoc. reflexivity.
Qed.

Lemma chatbot_run w :
  finishes (Chatbot.notebook L) w
    (λ _ new, steps new
              = [CsvLoad; TextConcatenation; EmbeddingGeneration;
                 VectorStoreConstruction; RetrievalChainConstruction]
                ++ (Chatbot.questions ≫= λ _, question_steps)).
Proof.
  unfold Chatbot.notebook.
  destruct (ok_dotenv L HL) as [b Hb].
  eapply (finishes_bind _ _ w tt (extend w [Call load_dotenv; Displayed "load_dotenv()"])).
  { unfold Chatbot.In_2. rewrite Hb, run_bind_call. unfold display. by world. }
  { reflexivity. }
  eapply finishes_bind; [unfold Chatbot.In_3; apply run_call|reflexivity|].
  match goal with |- finishes _ ?w' _ =>
    destruct (run_chat_In_4 w') as (df' & documents & H4 & Hdocs) end.
  eapply finishes_bind; [exact H4|reflexivity|].
  eapply finishes_bind; [reflexivity|reflexivity|].
  eapply finishes_bind; [reflexivity|reflexivity|].
  match goal with |- finishes _ ?w' _ =>
    destruct (run_chat_In_8 df' documents w' Hdocs) as (globals & w8 & H8 & Hev8) end.
  eapply finishes_bind; [exact H8|exact Hev8|].
  destruct (run_In_9 globals.1 globals.2 w8) as ([] & w9 & new9 & H9 & Hev9 & Hs9).
  eapply finishes_intro; [exact H9|exact Hev9|].
  rewrite !chat_steps_app, Hs9. reflexivity.
Qed.

End ChatbotRuns.

(** ** The stand-in library *)

Lemma stand_in_fine_tuning_succeeds : fine_tuning_succeeds stand_in.
Proof.
  split; try (intros; eexists; reflexivity); try (intros; reflexivity).
  - eexists _, _, _, _. split; [reflexivity|].
    split; [reflexivity|]. split; [reflexivity|]. split; [reflexivity|].
    rewrite !length_replicate. split; reflexivity.
  - intros. eexists. split; [reflexivity|]. by rewrite !length_fmap.
  - intros. eexists _, _. split; [reflexivity|].
    apply Forall_fmap, Forall_forall. done.
Qed.

Lemma stand_in_chatbot_succeeds : chatbot_succeeds stand_in.
Proof.
  split; try (intros; eexists; reflexivity).
  - eexists. split; [reflexivity|]. repeat constructor; by eexists.
  - intros. eexists _, _. split; [reflexivity|]. apply lookup_singleton_eq.
  - intros. eexists _, _. reflexivity.
Qed.

Lemma in_order_pair {T} (rank : T → nat) (a b c : list T) s t :
  in_order rank (a ++ s :: b ++ t :: c) → (rank s ≤ rank t)%nat.
Proof.
  intros H. apply (H (length a) (length a + S (length b))%nat); [lia| |].
  - by apply list_lookup_middle.
  - rewrite lookup_app_r by lia.
    replace (length a + S (length b) - length a)%nat with (S (length b)) by lia.
    change ((b ++ t :: c) !! length b = Some t). by apply list_lookup_middle.
Qed.

Lemma new_events_app w w' new :
  events w' = events w ++ new → new_events w w' = new.
Proof. intros H. unfold new_events. by rewrite H, drop_app_length. Qed.

(** ** Exceptions and saves, from the discipline *)

Lemma quiet_not_raised Q (l : list event) e : Forall (quiet Q) l → Raised e ∉ l.
Proof.
  intros Hall Hin. rewrite Forall_forall in Hall. by apply (Hall _ Hin).
Qed.

Lemma sound_unhandled Q {A} (m : Py A) : sound Q m → unhandled m.
Proof.
  intros Hm w e. destruct (Hm w) as (new & Hev & Hd).
  rewrite (new_events_app _ _ _ Hev).
  destruct ((m w).1) as [e0|a]; cbn [disciplined] in Hd.
  - destruct Hd as (before & -> & Hq).
    assert (Hin : Raised e ∈ before ++ [Raised e0] → e = e0).
    { intros Hin. apply elem_of_app in Hin as [Hin|Hin].
      - by apply (quiet_not_raised _ _ e) in Hq.
      - apply list_elem_of_singleton in Hin. congruence. }
    split; [split|].
    + intros H. by rewrite (Hin H).
    + intros [= ->]. apply elem_of_app. right. apply list_elem_of_here.
    + intros H. rewrite (Hin H). exists before. split; [done|].
      intros e'. by apply quiet_not_raised with Q.
  - pose proof (quiet_not_raised _ _ e Hd) as Hnot.
    split; [split|]; [done|done|done].
Qed.

Lemma disciplined_Forall Q (P : event → Prop) {A} (r : result A) new :
  (∀ e, quiet Q e → P e) → (∀ e, P (Raised e)) →
  disciplined Q r new → Forall P new.
Proof.
  intros HQ HR Hd. destruct r as [e|a]; cbn in Hd.
  - destruct Hd as (before & -> & Hq). apply Forall_app. split.
    + eapply Forall_impl; [exact Hq|exact HQ].
    + by repeat constructor.
  - eapply Forall_impl; [exact Hd|exact HQ].
Qed.

(** ** Logic of the repository's own *)

Lemma show_one_example_per_label_own_logic :
  own_logic fn_show_one_example_per_label.
Proof.
  split; [reflexivity|].
  exists tokens, stand_in, ([stand_in_example], 0%nat), ([], 0%nat), fresh_kernel.
  vm_compute. discriminate.
Qed.

Lemma add_text_own_logic : own_logic fn_add_text.
Proof.
  split; [reflexivity|].
  exists tokens, stand_in, [stand_in_character], [], fresh_kernel.
  intros H.
  apply (f_equal (λ r, match r.1 with inr df => length df | inl _ => 0%nat end)) in H.
  vm_compute in H. discriminate.
Qed.

(** ** Calls of [chatbot_with_langchain] keep no state *)

Section Stateless.
Context {O : Opaque} (L : Lib O).
Context (chat_model : ChatOpenAI O) (retriever : VectorStoreRetriever O).

#[local] Abbreviation run := (chatbot_with_langchain L chat_model retriever).

(** A call behaves as in a kernel with no history and the same default
    list: its outcome is the same and its events come after the old ones. *)
Lemma call_frame question chat_history w :
  (run question chat_history w).1
    = (run question chat_history (World [] (chat_history_default w))).1 ∧
  events (run question chat_history w).2
    = events w ++ events (run question chat_history (World [] (chat_history_default w))).2.
Proof.
  unfold chatbot_with_langchain, invoke_chain, getitem.
  rewrite !run_bind. unfold call.
  destruct (from_llm L chat_model retriever) as [e|chain]; cbn [fst snd events log].
  { split; [done|]. by rewrite <- app_assoc. }
  rewrite !run_bind. cbn [chat_history_default log events].
  destruct chat_history as [h|].
  all: match goal with |- context [invoke L ?c ?q ?h] =>
         destruct (invoke L c q h) as [[e|res] h'] end.
  all: cbn [fst snd events log chat_history_default].
  all: try destruct (res !! "answer"); cbn [fst snd events log raise mret Py_ret ret].
  all: split; [done|]; by rewrite <- ?app_assoc.
Qed.

Lemma call_keeps_default question chat_history w :
  invoke_reads_only L →
  chat_history_default (run question chat_history w).2 = chat_history_default w.
Proof.
  intros Hread.
  unfold chatbot_with_langchain, invoke_chain, getitem.
  rewrite !run_bind. unfold call.
  destruct (from_llm L chat_model retriever) as [e|chain]; [done|].
  rewrite !run_bind. cbn [chat_history_default log events].
  destruct chat_history as [h|].
  all: match goal with |- context [invoke L ?c ?q ?h] =>
         pose proof (Hread c q h) as Hh;
         destruct (invoke L c q h) as [[e|res] h'] end.
  all: cbn [fst snd events log chat_history_default] in *.
  all: try destruct (res !! "answer"); cbn; done.
Qed.

Lemma after_calls_keeps_default calls : ∀ w,
  invoke_reads_only L →
  chat_history_default (after_calls L chat_model retriever calls w)
  = chat_history_default w.
Proof.
  induction calls as [|[q h] rest IH]; intros w Hread; [done|].
  cbn [after_calls fst snd]. rewrite IH by done. by apply call_keeps_default.
Qed.

Lemma call_events question chat_history d :
  (∃ rest, events (run question chat_history (World [] d)).2
           = Call ConversationalRetrievalChain_from_llm :: rest) ∧
  ∀ input,
    input ∈ omap submitted (events (run question chat_history (World [] d)).2) →
    input = (question, default d chat_history).
Proof.
  unfold chatbot_with_langchain, invoke_chain, getitem.
  rewrite !run_bind. unfold call.
  destruct (from_llm L chat_model retriever) as [e|chain]; cbn [fst snd events log].
  { split; [by eexists|]. cbn. intros input H. by apply elem_of_nil in H. }
  rewrite !run_bind. cbn [chat_history_default log events].
  destruct chat_history as [h|].
  all: match goal with |- context [invoke L ?c ?q ?h] =>
         destruct (invoke L c q h) as [[e|res] h'] end.
  all: cbn [fst snd events log chat_history_default].
  all: try destruct (res !! "answer"); cbn [fst snd events log raise mret Py_ret ret].
  all: split; [by eexists|]; cbn; intros input H.
  all: apply list_elem_of_singleton in H; by subst.
Qed.

Lemma stateless (calls1 calls2 : list (string * option (list (string * string))))
    (w0 : world) (question : string) (chat_history : option (list (string * string))) :
  invoke_reads_only L →
  chat_history_default w0 = [] →
  let w1 := after_calls L chat_model retriever calls1 w0 in
  let w2 := after_calls L chat_model retriever calls2 w0 in
  chat_history_default w1 = [] ∧
  (run question chat_history w1).1 = (run question chat_history w2).1 ∧
  new_events w1 (run question chat_history w1).2
    = new_events w2 (run question chat_history w2).2 ∧
  (∃ rest, new_events w1 (run question chat_history w1).2
           = Call ConversationalRetrievalChain_from_llm :: rest) ∧
  (∀ input,
     input ∈ omap submitted (new_events w1 (run question chat_history w1).2) →
     input = (question, default [] chat_history)).
Proof.
  intros Hread Hw0 w1 w2.
  assert (Hd1 : chat_history_default w1 = []).
  { unfold w1. by rewrite after_calls_keeps_default. }
  assert (Hd2 : chat_history_default w2 = []).
  { unfold w2. by rewrite after_calls_keeps_default. }
  destruct (call_frame question chat_history w1) as [Hr1 He1].
  destruct (call_frame question chat_history w2) as [Hr2 He2].
  rewrite Hd1 in Hr1, He1. rewrite Hd2 in Hr2, He2.
  rewrite (new_events_app _ _ _ He1), (new_events_app _ _ _ He2).
  split; [done|]. split; [by rewrite Hr1, Hr2|]. split; [done|].
  apply call_events.
Qed.

End Stateless.

(** * The specification's claims *)

(** ** Worked examples *)

(** Ties go to the first maximal entry; an empty row has no argmax. *)
Example argmax_tie : argmax [1; 3; 3]%Q = inr 1.
Proof. reflexivity. Qed.

Example argmax_empty : argmax [] = inl IndexError.
Proof. reflexivity. Qed.

(** From offset 1 the labels met are 1, 1, 0, 2: the second example is
    skipped as its label was seen, and the loop stops at the example
    labelled 2 without taking the one after it. *)
Example show_one_example_per_label_example :
  printed
    (events
       (show_one_example_per_label
          [ {| label := 5; premise := "p0"; hypothesis := "h0" |};
            {| label := 1; premise := "p1"; hypothesis := "h1" |};
            {| label := 1; premise := "p2"; hypothesis := "h2" |};
            {| label := 0; premise := "p3"; hypothesis := "h3" |};
            {| label := 2; premise := "p4"; hypothesis := "h4" |};
            {| label := 0; premise := "p5"; hypothesis := "h5" |} ]
          1 fresh_kernel).2)
  = [ nl +:+ "Label: 1 (Neutral)"; "Premise: p1"; "Hypothesis: h1";
      nl +:+ "Label: 0 (Entailment)"; "Premise: p3"; "Hypothesis: h3";
      nl +:+ "Label: 2 (Contradiction)"; "Premise: p4"; "Hypothesis: h4" ].
Proof. reflexivity. Qed.

(** A selection past the end of a split is an [IndexError], so the
    downsampling cell needs splits of the sizes it asks for. *)
Example select_past_the_end :
  select_rows [10; 20; 30] (py_range 0 4) = inl IndexError.
Proof. reflexivity. Qed.

(** The default list is one object: a library that appended to it would be
    heard by the next call that omits [chat_history]. *)
Example default_list_is_shared :
  let first := chatbot_with_langchain remembering tt tt "Who is Jack?" None in
  let second := chatbot_with_langchain remembering tt tt "Who is Alice?" None in
  let w1 := (first fresh_kernel).2 in
  omap submitted (new_events w1 (second w1).2)
  = [("Who is Alice?", [("Who is Jack?", "about: Who is Jack?")])].
Proof. reflexivity. Qed.

(** A library call that raises ends the run with that exception. *)
Example offline_run :
  Chatbot.notebook offline fresh_kernel
  = (inl offline_error, extend fresh_kernel [Call load_dotenv; Raised offline_error]).
Proof. reflexivity. Qed.

(** ** C1, witness *)

Lemma compute_metrics_wraps_metrics_witness :
  Forall (λ row : list Q, row ≠ []) [[0; 1; 0]%Q; [2; 1; 0]%Q] ∧
  ∃ metrics : gmap string Q,
    compute_metrics stand_in ([[0; 1; 0]%Q; [2; 1; 0]%Q], [1; 0]) fresh_kernel
      = (inr metrics,
         extend fresh_kernel [Call torch_argmax; Call sk_f1_score;
                              Call sk_precision_score; Call sk_recall_score]) ∧
    dom metrics = {[ "f1_score"; "precision"; "recall" ]} ∧
    metrics !! "f1_score" = Some (1 # 3)%Q.
Proof.
  assert (Hrows : Forall (λ row : list Q, row ≠ []) [[0; 1; 0]%Q; [2; 1; 0]%Q]).
  { repeat constructor; discriminate. }
  split; [exact Hrows|].
  destruct (compute_metrics_wraps_metrics stand_in _ [1; 0] fresh_kernel Hrows)
    as (preds & _ & _ & Hrun).
  destruct (Hrun (1 # 3)%Q (1 # 3)%Q (1 # 3)%Q eq_refl eq_refl eq_refl)
    as (metrics & H1 & H2 & H3 & _).
  exists metrics. split; [exact H1|]. split; [exact H2|exact H3].
Defined.

(** ** C9, witness *)


(** ** C6 *)



(** ** C2 *)



(** ** C3 *)



(** ** C4 *)




(** ** C5 *)




(** ** C7 *)

(** C7. No code of the repository catches or transforms an exception:
    in every run of either notebook and of each function defined in them,
    whatever the libraries do, an exception raised by a library call ends
    the run with that very exception as its outcome, and nothing runs
    after it. The exceptions of the model are Python's own and the
    libraries'; the repository defines none. *)
Theorem exceptions_propagate {O} (L : Lib O) :
  unhandled (FineTuning.notebook L) ∧
  unhandled (Chatbot.notebook L) ∧
  (∀ dataset_split offset,
     unhandled (show_one_example_per_label dataset_split offset)) ∧
  (∀ tokenizer examples, unhandled (preprocess_function L tokenizer examples)) ∧
  (∀ eval_pred, unhandled (compute_metrics L eval_pred)) ∧
  (∀ question, unhandled (chatbot_without_customization L question)) ∧
  (∀ chat_model retriever question chat_history,
     unhandled (chatbot_with_langchain L chat_model retriever question chat_history)).
Proof.
  split; [eapply sound_unhandled, sound_fine_tuning_notebook|].
  split; [eapply sound_unhandled, sound_chatbot_notebook|].
  split; [intros; eapply sound_unhandled, sound_show_one_example_per_label|].
  split; [intros; eapply sound_unhandled, sound_preprocess_function|].
  split; [intros; eapply sound_unhandled, sound_compute_metrics|].
  split; [intros; eapply sound_unhandled, sound_chatbot_without_customization|].
  intros; eapply sound_unhandled, sound_chatbot_with_langchain.
Qed.

(** ** C10 *)

(** C10. [chatbot_with_langchain] keeps no state between calls. Provided
    the chain's [invoke] leaves the history list it is given as it was, in
    a kernel where the default list is still empty: after any earlier
    calls the default list is empty still; a call with the same question
    and history has the same outcome and the same events whatever calls
    came before it; its first event is the construction of a new chain;
    and every input it submits to the chain is the question with the
    given history, or with the empty list when none is given. *)
Theorem chatbot_with_langchain_stateless {O} (L : Lib O)
    (chat_model : ChatOpenAI O) (retriever : VectorStoreRetriever O)
    (calls1 calls2 : list (string * option (list (string * string))))
    (w0 : world) (question : string)
    (chat_history : option (list (string * string))) :
  invoke_reads_only L →
  chat_history_default w0 = [] →
  let run := chatbot_with_langchain L chat_model retriever question chat_history in
  let w1 := after_calls L chat_model retriever calls1 w0 in
  let w2 := after_calls L chat_model retriever calls2 w0 in
  chat_history_default w1 = [] ∧
  (run w1).1 = (run w2).1 ∧
  new_events w1 (run w1).2 = new_events w2 (run w2).2 ∧
  (∃ rest, new_events w1 (run w1).2
           = Call ConversationalRetrievalChain_from_llm :: rest) ∧
  (∀ input,
     input ∈ omap submitted (new_events w1 (run w1).2) →
     input = (question, default [] chat_history)).
Proof.
  intros Hread Hw0.
  exact (stateless L chat_model retriever calls1 calls2 w0 question chat_history
           Hread Hw0).
Qed.

Lemma chatbot_with_langchain_stateless_witness :
  invoke_reads_only stand_in ∧
  chat_history_default fresh_kernel = [] ∧
  (chatbot_with_langchain stand_in tt tt "Who is Jack?" None
     (after_calls stand_in tt tt [("Who is Alice?", None)] fresh_kernel)).1
  = (chatbot_with_langchain stand_in tt tt "Who is Jack?" None fresh_kernel).1.
Proof.
  assert (Hread : invoke_reads_only stand_in) by (intros chain q h; reflexivity).
  split; [exact Hread|]. split; [reflexivity|].
  destruct (chatbot_with_langchain_stateless stand_in tt tt
              [("Who is Alice?", None)] [] fresh_kernel "Who is Jack?" None
              Hread eq_refl) as (_ & Houtcome & _).
  exact Houtcome.
Defined.
